(** * esbonio.lsp.sphinx: a shallow embedding of the Sphinx language server

    The development follows [lib/esbonio/esbonio/lsp/sphinx.py]:
    the log handler that turns Sphinx's warnings into diagnostics
    ([SphinxLogHandler]), the server that owns the Sphinx application
    ([SphinxLanguageServer]: [save], [build], the role and directive
    indices, the intersphinx lookup) and the helpers that resolve the
    configuration directory ([find_conf_dir], [expand_conf_dir]).

    Python values are modelled as the code has them: [str] as [string]
    (a string of bytes; a character outside ASCII is the bytes of its UTF-8
    encoding, each of them 128 or more), [int] as [Z], [None]-able values as [option], dictionaries that are only
    looked up as [gmap], dictionaries that are iterated as lists of pairs in
    insertion order, exceptions as the [Raise] case of [result]. *)

From Stdlib Require Import ZArith Ascii String List Bool Lia.
From stdpp Require Import base option list strings gmap fin_maps.

Import ListNotations.
Local Open Scope string_scope.
Local Open Scope Z_scope.
Local Open Scope list_scope.

(** ** Exceptions and fallible computations *)

Inductive exn : Type :=
| AttributeError (what : string)
| TypeError (what : string)
| IndexError (what : string)
| MissingConfigError
| EngineError (what : string)
| ValidationError (what : string).

Inductive result (A : Type) : Type :=
| Ok (a : A)
| Raise (e : exn).

Arguments Ok {A} a.
Arguments Raise {A} e.

#[global] Instance result_ret : MRet result := fun _ a => Ok a.

#[global] Instance result_bind : MBind result := fun _ _ k m =>
  match m with
  | Ok a => k a
  | Raise e => Raise e
  end.

(** ** Python strings *)

Module PyStr.

(** [s.startswith(p)] *)
Fixpoint startswith (p s : string) : bool :=
  match p with
  | EmptyString => true
  | String a p' =>
      match s with
      | EmptyString => false
      | String b s' => if Ascii.eqb a b then startswith p' s' else false
      end
  end.

(** [p in s] for strings: [p] occurs somewhere in [s]. *)
Fixpoint contains (p s : string) : bool :=
  startswith p s
  || match s with
     | EmptyString => false
     | String _ s' => contains p s'
     end.

(** [s.endswith(p)] *)
Fixpoint endswith (p s : string) : bool :=
  String.eqb p s
  || match s with
     | EmptyString => false
     | String _ s' => endswith p s'
     end.

(** [s.split(sep)] for a one-character separator.  The result is never
    empty: a string without the separator is returned as its only
    element. *)
Fixpoint split (sep : ascii) (s : string) : list string :=
  match s with
  | EmptyString => [EmptyString]
  | String c s' =>
      if Ascii.eqb c sep then EmptyString :: split sep s'
      else match split sep s' with
           | h :: t => String c h :: t
           | [] => [String c EmptyString]
           end
  end.

(** [sep.join(parts)] *)
Fixpoint join (sep : string) (parts : list string) : string :=
  match parts with
  | [] => EmptyString
  | [p] => p
  | p :: rest => p +:+ sep +:+ join sep rest
  end.

(** [c] does not occur in [s]. *)
Fixpoint lacks (c : ascii) (s : string) : bool :=
  match s with
  | EmptyString => true
  | String a s' => negb (Ascii.eqb a c) && lacks c s'
  end.

Definition is_digit (c : ascii) : bool :=
  let n := nat_of_ascii c in (48 <=? n)%nat && (n <=? 57)%nat.

Definition digit_val (c : ascii) : Z := Z.of_nat (nat_of_ascii c) - 48.

(** The ASCII characters [int()] skips around a number: space, tab, line
    feed, vertical tab, form feed and carriage return.  (The separators 28
    to 31, which [str.strip()] removes, are not among them:
    [int("\x1c42")] is a [ValueError].) *)
Definition is_space (c : ascii) : bool :=
  let n := nat_of_ascii c in
  (n =? 32)%nat || ((9 <=? n)%nat && (n <=? 13)%nat).

(** Every character of the string is an ASCII character. *)
Fixpoint is_ascii (s : string) : bool :=
  match s with
  | EmptyString => true
  | String c s' => (nat_of_ascii c <? 128)%nat && is_ascii s'
  end.

Fixpoint lstrip (s : string) : string :=
  match s with
  | String c s' => if is_space c then lstrip s' else s
  | EmptyString => EmptyString
  end.

(** Drop trailing white space. *)
Fixpoint rstrip (s : string) : string :=
  match s with
  | EmptyString => EmptyString
  | String c s' =>
      match rstrip s' with
      | EmptyString => if is_space c then EmptyString else String c EmptyString
      | r => String c r
      end
  end.

(** The digits of a decimal literal: at least one digit, and single
    underscores allowed between digits.  [acc] is the value read so far,
    [prev_digit] tells whether the previous character was a digit. *)
Fixpoint digits (acc : Z) (prev_digit : bool) (s : string) : option Z :=
  match s with
  | EmptyString => if prev_digit then Some acc else None
  | String c s' =>
      if is_digit c then digits (10 * acc + digit_val c) true s'
      else if Ascii.eqb c "_" then
             if prev_digit then digits acc false s' else None
           else None
  end.

(** [int(s)] in base ten on an ASCII string: blanks around, a sign, the
    digits.  [None] stands for [ValueError]. *)
Definition int_ascii (s : string) : option Z :=
  match rstrip (lstrip s) with
  | String "+" d => digits 0 false d
  | String "-" d => Z.opp <$> digits 0 false d
  | d => digits 0 false d
  end.

(** [int(s)] in base ten.  On an ASCII string of at most 640 characters it
    is [int_ascii].  The other strings are left to the interpreter, as
    [other], supplied by the platform: on a string with characters outside
    ASCII, [int()] first maps the blanks and the decimal digits of Unicode
    to ASCII ones, with tables of its own; and recent interpreters refuse a
    number of more digits than a limit that can be configured, but not set
    below 640. *)
Definition int (other : string -> option Z) (s : string) : option Z :=
  if is_ascii s && (String.length s <=? 640)%nat then int_ascii s else other s.

End PyStr.

(** ** Paths

    [pathlib] and [pygls.uris] belong to the platform the server runs on,
    like the Unicode tables of the interpreter.  A path object is
    represented by its string form; the platform supplies the operations
    the module uses. *)

Record Platform : Type := {
  IS_WIN : bool;                            (* pygls.IS_WIN *)
  from_fs_path : string -> string;          (* pygls.uris.from_fs_path *)
  to_fs_path : string -> string;            (* pygls.uris.to_fs_path *)
  path_parts : string -> list string;       (* pathlib.Path(p).parts *)
  path_join : list string -> string;        (* str(pathlib.Path(a, b, ...)) *)
  path_parent : string -> string;           (* str(pathlib.Path(p).parent) *)
  path_resolve : string -> string;          (* str(pathlib.Path(p).resolve()) *)
  int_other : string -> option Z            (* int(s) where PyStr.int does not read s *)
}.

(** A value that is either a [str] or a [pathlib.Path]: [expand_conf_dir]
    returns the one or the other. *)
Inductive pathlike : Type :=
| AsStr (s : string)
| AsPath (p : string).

(** [str(x)] *)
Definition pathlike_str (x : pathlike) : string :=
  match x with
  | AsStr s => s
  | AsPath p => p
  end.

(** [x / name]: defined on paths, a [TypeError] on two strings. *)
Definition truediv (P : Platform) (x : pathlike) (name : string) : result pathlike :=
  match x with
  | AsPath p => Ok (AsPath (path_join P [p; name]))
  | AsStr _ => Raise (TypeError "unsupported operand type(s) for /: 'str' and 'str'")
  end.

(** A stand-in for a POSIX platform, used only to run the model on concrete
    inputs.  Paths are pure POSIX paths; [resolve] leaves a path as it is
    (no link is followed, no [..] removed); a file URI is the path behind
    [file://], neither normalised nor percent-encoded as [pygls] does; no
    string with a character outside ASCII, or longer than 640 characters, is
    read as an integer.  The
    values it gives in the examples are therefore those of the code only
    where these simplifications do not matter; the theorems hold for any
    [Platform]. *)
Module Posix.

Definition root_of (p : string) : string :=
  if PyStr.startswith "///" p then "/"
  else if PyStr.startswith "//" p then "//"
  else if PyStr.startswith "/" p then "/"
  else "".

Definition segments (p : string) : list string :=
  List.filter (fun x => negb (String.eqb x "") && negb (String.eqb x "."))
    (PyStr.split "/" p).

Definition parts (p : string) : list string :=
  match root_of p with
  | EmptyString => segments p
  | r => r :: segments p
  end.

Definition render (ps : list string) : string :=
  match ps with
  | [] => "."
  | r :: rest =>
      if PyStr.startswith "/" r then r +:+ PyStr.join "/" rest
      else PyStr.join "/" ps
  end.

(** [Path(a, b, ...)]: an absolute argument discards what precedes it. *)
Definition join (args : list string) : string :=
  render (fold_left
            (fun acc a => if PyStr.startswith "/" a then parts a else acc ++ parts a)
            args []).

Definition parent (p : string) : string :=
  match parts p with
  | [] => "."
  | [r] => render [r]
  | ps => render (removelast ps)
  end.

Definition uri_of_path (p : string) : string := "file://" +:+ p.

Definition path_of_uri (u : string) : string :=
  if PyStr.startswith "file://" u then String.substring 7 (String.length u - 7) u
  else u.

Definition platform : Platform :=
  {| IS_WIN := false;
     from_fs_path := uri_of_path;
     to_fs_path := path_of_uri;
     path_parts := parts;
     path_join := join;
     path_parent := parent;
     path_resolve := fun p => p;
   int_other := fun _ => None |}.

(** The same operations with [IS_WIN] set, to run [get_location] the way
    it runs on Windows. *)
Definition windows_flag : Platform :=
  {| IS_WIN := true;
     from_fs_path := uri_of_path;
     to_fs_path := path_of_uri;
     path_parts := parts;
     path_join := join;
     path_parent := parent;
     path_resolve := fun p => p;
   int_other := fun _ => None |}.

End Posix.

(** ** Log records and diagnostics *)

(** [logging.INFO], [logging.WARNING], [logging.ERROR] *)
Definition INFO : Z := 20.
Definition WARNING : Z := 30.
Definition ERROR : Z := 40.

(** A [logging.LogRecord] of Sphinx.  [rec_location] is the [location]
    attribute, [None] when the record carries none. *)
Record LogRecord : Type := {
  rec_name : string;
  rec_levelno : Z;
  rec_msg : string;
  rec_location : option string
}.

Inductive DiagnosticSeverity : Type :=
| Severity_Error
| Severity_Warning
| Severity_Information
| Severity_Hint.

Record Position : Type := { line : Z; character : Z }.
Record Range : Type := { start : Position; end_ : Position }.
Record Diagnostic : Type := {
  range : Range;
  message : string;
  severity : DiagnosticSeverity
}.

(** A key of a Python dictionary whose keys are not all of one type. *)
Inductive PyKey : Type :=
| KStr (s : string)
| KInt (z : Z).

(** Python's [==] on keys: a [str] never equals an [int]. *)
Definition PyKey_eqb (a b : PyKey) : bool :=
  match a, b with
  | KStr x, KStr y => String.eqb x y
  | KInt x, KInt y => Z.eqb x y
  | _, _ => false
  end.

(** [d.get(key, default)] *)
Fixpoint dict_get {V : Type} (d : list (PyKey * V)) (key : PyKey) (default : V) : V :=
  match d with
  | [] => default
  | (k, v) :: d' => if PyKey_eqb k key then v else dict_get d' key default
  end.

Definition DIAGNOSTIC_SEVERITY : list (PyKey * DiagnosticSeverity) :=
  [ (KStr "WARNING", Severity_Warning);
    (KStr "ERROR", Severity_Error) ].

(** ** The report-once filter

    The name [OnceFilter] is bound either to the class imported from
    [sphinx.util.logging] or, when the import fails (Sphinx 2.x), to the
    class defined in the module, whose [filter] accepts every record.  The
    imported class is Sphinx's: its decision is a function of the records it
    has been shown so far and of the record at hand. *)
Inductive OnceFilterClass : Type :=
| FallbackOnceFilter
| ImportedOnceFilter (accepts : list LogRecord -> LogRecord -> bool).

Record OnceFilter : Type := {
  of_class : OnceFilterClass;
  of_seen : list LogRecord
}.

Definition OnceFilter_new (c : OnceFilterClass) : OnceFilter :=
  {| of_class := c; of_seen := [] |}.

Definition OnceFilter_filter (f : OnceFilter) (record : LogRecord) : bool * OnceFilter :=
  match of_class f with
  | FallbackOnceFilter => (true, f)
  | ImportedOnceFilter accepts =>
      (accepts (of_seen f) record,
       {| of_class := of_class f; of_seen := of_seen f ++ [record] |})
  end.

(** ** SphinxLogHandler *)

Record SphinxLogHandler : Type := {
  translator : LogRecord -> LogRecord;      (* WarningLogRecordTranslator(app).filter *)
  only_once : OnceFilter;
  diagnostics : gmap string (list Diagnostic);
  forwarded : list LogRecord                (* records handed to LspHandler.emit *)
}.

Definition set_only_once (f : OnceFilter) (h : SphinxLogHandler) : SphinxLogHandler :=
  {| translator := translator h; only_once := f;
     diagnostics := diagnostics h; forwarded := forwarded h |}.

Definition set_handler_diagnostics (d : gmap string (list Diagnostic))
    (h : SphinxLogHandler) : SphinxLogHandler :=
  {| translator := translator h; only_once := only_once h;
     diagnostics := d; forwarded := forwarded h |}.

(** Modelled from the spec: [LspHandler.emit] (log.py) is not under src/; a
    record given to it is passed on to the ordinary log unchanged, which is
    kept here as the list of records handed over. *)
Definition LspHandler_emit (record : LogRecord) (h : SphinxLogHandler) : SphinxLogHandler :=
  {| translator := translator h; only_once := only_once h;
     diagnostics := diagnostics h; forwarded := forwarded h ++ [record] |}.

(** [lineno or 1] *)
Definition or_1 (lineno : option Z) : Z :=
  match lineno with
  | None => 1
  | Some 0 => 1
  | Some n => n
  end.

Definition make_diagnostic (ln : Z) (record : LogRecord) : Diagnostic :=
  {| range := {| start := {| line := ln - 1; character := 0 |};
                 end_ := {| line := ln; character := 0 |} |};
     message := rec_msg record;
     severity := dict_get DIAGNOSTIC_SEVERITY (KInt (rec_levelno record)) Severity_Warning |}.

Section Handler.

Context (P : Platform).

(** [SphinxLogHandler.get_location] *)
Definition get_location (location : string) : result (string * option Z) :=
  match PyStr.split ":" location with
  | [] => Raise (TypeError "not enough values to unpack")
  | path :: parts =>
      '(path, parts) ←
        (if IS_WIN P then
           match parts with
           | [] => Raise (IndexError "pop from empty list")
           | p0 :: rest => Ok (path +:+ ":" +:+ p0, rest)
           end
         else Ok (path, parts));
      let lineno :=
        match parts with
        | [p0] => PyStr.int (int_other P) p0
        | _ => None
        end in
      Ok (from_fs_path P path, lineno)
  end.

(** [SphinxLogHandler.emit].  The handler after the call is returned with
    the exception, if one was raised.  The third condition, [not
    self.translator], is false: the translator is an object built in
    [__init__]. *)
Definition emit (record : LogRecord) (h : SphinxLogHandler)
    : SphinxLogHandler * option exn :=
  let conditions :=
    [ negb (PyStr.contains "sphinx" (rec_name record));
      negb (Z.eqb (rec_levelno record) WARNING || Z.eqb (rec_levelno record) ERROR);
      false ] in
  if existsb id conditions then (LspHandler_emit record h, None)
  else
    let '(accepted, f) := OnceFilter_filter (only_once h) record in
    let h := set_only_once f h in
    if negb accepted then (h, None)
    else
      let record := translator h record in
      match rec_location record with
      | None => (h, Some (AttributeError "'NoneType' object has no attribute 'split'"))
      | Some location =>
          match get_location location with
          | Raise e => (h, Some e)
          | Ok (doc, lineno) =>
              let ln := or_1 lineno in
              let diagnostic := make_diagnostic ln record in
              let h :=
                match diagnostics h !! doc with
                | None => set_handler_diagnostics (<[doc := [diagnostic]]> (diagnostics h)) h
                | Some ds =>
                    set_handler_diagnostics (<[doc := ds ++ [diagnostic]]> (diagnostics h)) h
                end in
              (LspHandler_emit record h, None)
          end
      end.

(** Records given to the handler one after the other; the first exception
    ends the sequence. *)
Fixpoint emit_all (records : list LogRecord) (h : SphinxLogHandler)
    : SphinxLogHandler * option exn :=
  match records with
  | [] => (h, None)
  | r :: rest =>
      match emit r h with
      | (h', None) => emit_all rest h'
      | (h', Some e) => (h', Some e)
      end
  end.

End Handler.

(** ** The Sphinx application, as far as the server looks into it *)

(** Roles, directives and inventory entries are objects of Sphinx and
    docutils that the server stores and hands out without looking inside:
    they are represented by a name. *)
Definition RoleSpec : Type := string.
Definition DirectiveSpec : Type := string.
Definition InventoryEntries : Type := list (string * string).

(** A tuple yielded by [Domain.get_objects()]; [obj[2]] is the type. *)
Record DomainObject : Type := {
  obj_name : string;
  obj_dispname : string;
  obj_type : string;
  obj_docname : string;
  obj_anchor : string;
  obj_priority : Z
}.

(** A [sphinx.domains.Domain].  Its dictionaries are iterated by the
    server, so they are lists of pairs in iteration order; an object type
    is given by the roles that can refer to it ([ObjType.roles]). *)
Record Domain : Type := {
  roles : list (string * RoleSpec);
  directives : list (string * DirectiveSpec);
  object_types : list (string * list string);
  get_objects : list DomainObject
}.

Record Sphinx : Type := {
  confdir : string;
  _warncount : Z;
  env_domains : list (string * Domain);                  (* app.env.domains *)
  config_primary_domain : option string;                 (* app.config.primary_domain *)
  env_intersphinx_named_inventory :
    option (gmap string (gmap string InventoryEntries)); (* absent without intersphinx *)
  intersphinx_project_names : list string;               (* its keys, in the dict's order *)
  doc_translate : LogRecord -> LogRecord                 (* what WarningLogRecordTranslator does *)
}.

Definition set_warncount (n : Z) (a : Sphinx) : Sphinx :=
  {| confdir := confdir a; _warncount := n; env_domains := env_domains a;
     config_primary_domain := config_primary_domain a;
     env_intersphinx_named_inventory := env_intersphinx_named_inventory a;
     intersphinx_project_names := intersphinx_project_names a;
     doc_translate := doc_translate a |}.

(** ** Configuration *)

Record SphinxConfig : Type := {
  version : option string;
  conf_dir : option string;
  src_dir : option string;
  build_dir : option string;
  builder_name : string
}.

Record SphinxServerConfig : Type := {
  hide_sphinx_output : option bool
}.

Record InitializationOptions : Type := {
  sphinx : option SphinxConfig;
  server : option SphinxServerConfig
}.

(** [params.initialization_options], as far as the constructor of
    [InitializationOptions] tells the cases apart: nothing was sent ([None],
    which cannot be unpacked); a mapping that the validation of the model refuses;
    a mapping that is accepted, given by the options it is read as. *)
Inductive InitializationParams : Type :=
| NoOptions
| InvalidOptions (what : string)
| Options (o : InitializationOptions).

(** The object given to [find_conf_dir] as [config]: the function reads
    its [conf_dir] attribute, which a [SphinxConfig] has and an
    [InitializationOptions] has not. *)
Inductive ConfigObject : Type :=
| OfSphinxConfig (c : SphinxConfig)
| OfInitializationOptions (o : InitializationOptions).

Definition getattr_conf_dir (config : ConfigObject) : result (option string) :=
  match config with
  | OfSphinxConfig c => Ok (conf_dir c)
  | OfInitializationOptions _ =>
      Raise (AttributeError "'InitializationOptions' object has no attribute 'conf_dir'")
  end.

(** Truth value of an optional string: [None] and [""] are false. *)
Definition str_truthy (x : option string) : option string :=
  match x with
  | Some EmptyString => None
  | other => other
  end.

(** ** PATH_VAR_PATTERN and expand_conf_dir *)

(** [\w] on ASCII characters: letters, digits and the underscore. *)
Definition is_word (c : ascii) : bool :=
  let n := nat_of_ascii c in
  ((48 <=? n)%nat && (n <=? 57)%nat)
  || ((65 <=? n)%nat && (n <=? 90)%nat)
  || ((97 <=? n)%nat && (n <=? 122)%nat)
  || (n =? 95)%nat.

(** The longest prefix of word characters, and what follows it. *)
Fixpoint take_word (s : string) : string * string :=
  match s with
  | EmptyString => (EmptyString, EmptyString)
  | String c s' =>
      if is_word c then let '(w, rest) := take_word s' in (String c w, rest)
      else (EmptyString, s)
  end.

(** [PATH_VAR_PATTERN.match(s)] for the pattern [^\${(\w+)}/?.*]: the
    group when the pattern matches.  The string has to start with a dollar
    sign and an opening brace, then come one or more word characters and
    a closing brace; [\w+] takes all the word characters there are since
    the brace that has to follow is not one; [/?.*] matches whatever comes
    after, the empty string included. *)
Definition PATH_VAR_PATTERN_match (s : string) : option string :=
  match s with
  | String "$" (String "{" r) =>
      match take_word r with
      | (EmptyString, _) => None
      | (w, String "}" _) => Some w
      | (_, _) => None
      end
  | _ => None
  end.

Section Paths.

Context (P : Platform).

(** [expand_conf_dir] *)
Definition expand_conf_dir (root_dir : string) (conf_dir : string) : pathlike :=
  match PATH_VAR_PATTERN_match conf_dir with
  | None => AsStr conf_dir
  | Some group1 =>
      if negb (String.eqb group1 "workspaceRoot") then AsStr conf_dir
      else
        let conf := tail (path_parts P conf_dir) in
        AsPath (path_resolve P (path_join P (root_dir :: conf)))
  end.

Definition ignore_paths : list string := [".tox"; "site-packages"].

(** [find_conf_dir].  [glob] is the outcome of [root.glob("**/conf.py")],
    the candidates in the order the file system yields them. *)
Definition find_conf_dir (glob : string -> list string) (root_uri : string)
    (config : ConfigObject) : result (option pathlike) :=
  let root := path_join P [to_fs_path P root_uri] in
  conf_dir ← getattr_conf_dir config;
  match str_truthy conf_dir with
  | Some cd => Ok (Some (expand_conf_dir root cd))
  | None =>
      let kept :=
        List.filter
          (fun candidate => negb (existsb (fun p => PyStr.contains p candidate) ignore_paths))
          (glob root) in
      match kept with
      | [] => Ok None
      | candidate :: _ => Ok (Some (AsPath (path_parent P candidate)))
      end
  end.

End Paths.

(** ** The language server *)

Inductive MessageType : Type :=
| MessageType_Error
| MessageType_Warning.

(** What the server sends to the client or writes to its error log. *)
Inductive Sent : Type :=
| ShowMessage (text : string) (msg_type : MessageType)
| SendNotification (method : string)
| PublishDiagnostics (uri : string) (ds : list Diagnostic)
| LoggedError (e : exn).

(** The attributes of a [SphinxLanguageServer].  [sphinx_log] is unset until
    [create_sphinx_app] installs a handler; [sphinx_log_attached] tells
    whether that handler is among the handlers of the ["sphinx"] logger.
    [_roles], [_directives] and [_diagnostics] are attributes of the base
    class, like the base tables [rst_roles] and [rst_directives] that
    [RstLanguageServer.get_roles] and [get_directives] return. *)
Record Server : Type := {
  app : option Sphinx;
  user_config : InitializationOptions;
  sphinx_log : option SphinxLogHandler;
  sphinx_log_attached : bool;
  _roles : option (gmap string RoleSpec);
  _directives : option (gmap string DirectiveSpec);
  _role_target_types : option (gmap string (list string));
  _role_targets : option (gmap string (list DomainObject));
  _diagnostics : gmap (string * string) (list Diagnostic);
  workspace_root_uri : string;
  rst_roles : gmap string RoleSpec;
  rst_directives : gmap string DirectiveSpec;
  sent : list Sent
}.

Definition set_app (x : option Sphinx) (s : Server) : Server :=
  {| app := x; user_config := user_config s; sphinx_log := sphinx_log s;
     sphinx_log_attached := sphinx_log_attached s; _roles := _roles s;
     _directives := _directives s; _role_target_types := _role_target_types s;
     _role_targets := _role_targets s; _diagnostics := _diagnostics s;
     workspace_root_uri := workspace_root_uri s; rst_roles := rst_roles s;
     rst_directives := rst_directives s; sent := sent s |}.

Definition set_user_config (x : InitializationOptions) (s : Server) : Server :=
  {| app := app s; user_config := x; sphinx_log := sphinx_log s;
     sphinx_log_attached := sphinx_log_attached s; _roles := _roles s;
     _directives := _directives s; _role_target_types := _role_target_types s;
     _role_targets := _role_targets s; _diagnostics := _diagnostics s;
     workspace_root_uri := workspace_root_uri s; rst_roles := rst_roles s;
     rst_directives := rst_directives s; sent := sent s |}.

Definition set_sphinx_log (x : option SphinxLogHandler) (attached : bool) (s : Server)
    : Server :=
  {| app := app s; user_config := user_config s; sphinx_log := x;
     sphinx_log_attached := attached; _roles := _roles s;
     _directives := _directives s; _role_target_types := _role_target_types s;
     _role_targets := _role_targets s; _diagnostics := _diagnostics s;
     workspace_root_uri := workspace_root_uri s; rst_roles := rst_roles s;
     rst_directives := rst_directives s; sent := sent s |}.

Definition set_roles (x : option (gmap string RoleSpec)) (s : Server) : Server :=
  {| app := app s; user_config := user_config s; sphinx_log := sphinx_log s;
     sphinx_log_attached := sphinx_log_attached s; _roles := x;
     _directives := _directives s; _role_target_types := _role_target_types s;
     _role_targets := _role_targets s; _diagnostics := _diagnostics s;
     workspace_root_uri := workspace_root_uri s; rst_roles := rst_roles s;
     rst_directives := rst_directives s; sent := sent s |}.

Definition set_directives (x : option (gmap string DirectiveSpec)) (s : Server) : Server :=
  {| app := app s; user_config := user_config s; sphinx_log := sphinx_log s;
     sphinx_log_attached := sphinx_log_attached s; _roles := _roles s;
     _directives := x; _role_target_types := _role_target_types s;
     _role_targets := _role_targets s; _diagnostics := _diagnostics s;
     workspace_root_uri := workspace_root_uri s; rst_roles := rst_roles s;
     rst_directives := rst_directives s; sent := sent s |}.

Definition set_role_target_types (x : option (gmap string (list string))) (s : Server)
    : Server :=
  {| app := app s; user_config := user_config s; sphinx_log := sphinx_log s;
     sphinx_log_attached := sphinx_log_attached s; _roles := _roles s;
     _directives := _directives s; _role_target_types := x;
     _role_targets := _role_targets s; _diagnostics := _diagnostics s;
     workspace_root_uri := workspace_root_uri s; rst_roles := rst_roles s;
     rst_directives := rst_directives s; sent := sent s |}.

Definition set_role_targets (x : option (gmap string (list DomainObject))) (s : Server)
    : Server :=
  {| app := app s; user_config := user_config s; sphinx_log := sphinx_log s;
     sphinx_log_attached := sphinx_log_attached s; _roles := _roles s;
     _directives := _directives s; _role_target_types := _role_target_types s;
     _role_targets := x; _diagnostics := _diagnostics s;
     workspace_root_uri := workspace_root_uri s; rst_roles := rst_roles s;
     rst_directives := rst_directives s; sent := sent s |}.

Definition set__diagnostics (x : gmap (string * string) (list Diagnostic)) (s : Server)
    : Server :=
  {| app := app s; user_config := user_config s; sphinx_log := sphinx_log s;
     sphinx_log_attached := sphinx_log_attached s; _roles := _roles s;
     _directives := _directives s; _role_target_types := _role_target_types s;
     _role_targets := _role_targets s; _diagnostics := x;
     workspace_root_uri := workspace_root_uri s; rst_roles := rst_roles s;
     rst_directives := rst_directives s; sent := sent s |}.

Definition send (m : list Sent) (s : Server) : Server :=
  {| app := app s; user_config := user_config s; sphinx_log := sphinx_log s;
     sphinx_log_attached := sphinx_log_attached s; _roles := _roles s;
     _directives := _directives s; _role_target_types := _role_target_types s;
     _role_targets := _role_targets s; _diagnostics := _diagnostics s;
     workspace_root_uri := workspace_root_uri s; rst_roles := rst_roles s;
     rst_directives := rst_directives s; sent := sent s ++ m |}.

(** A method of the server: it runs on a server and either returns or
    raises, leaving the server as it is at that moment. *)
Inductive Outcome (A : Type) : Type :=
| Returned (a : A) (s : Server)
| Raised (e : exn) (s : Server).

Arguments Returned {A} a s.
Arguments Raised {A} e s.

Definition Py (A : Type) : Type := Server -> Outcome A.

#[global] Instance Py_ret : MRet Py := fun _ a s => Returned a s.

#[global] Instance Py_bind : MBind Py := fun _ _ k m s =>
  match m s with
  | Returned a s' => k a s'
  | Raised e s' => Raised e s'
  end.

Definition raise {A : Type} (e : exn) : Py A := fun s => Raised e s.
Definition read {A : Type} (f : Server -> A) : Py A := fun s => Returned (f s) s.
Definition update (f : Server -> Server) : Py unit := fun s => Returned tt (f s).

(** A fallible pure computation run inside a method. *)
Definition lift {A : Type} (r : result A) : Py A :=
  match r with
  | Ok a => mret a
  | Raise e => raise e
  end.

(** [try: body  except Exception as e: handler(e)] *)
Definition try_except {A : Type} (body : Py A) (handler : exn -> Py A) : Py A :=
  fun s =>
    match body s with
    | Returned a s' => Returned a s'
    | Raised e s' => handler e s'
    end.

(** The server after a call, whichever way it ended. *)
Definition state_of {A : Type} (o : Outcome A) : Server :=
  match o with
  | Returned _ s => s
  | Raised _ s => s
  end.

(** *** Diagnostics held by the base class *)

(** Modelled from the spec: [RstLanguageServer.set_diagnostics] (rst.py) is
    not under src/.  The server keeps the diagnostics per source and
    document; setting them replaces the group of that document. *)
Definition set_diagnostics (source uri : string) (ds : list Diagnostic) : Py unit :=
  update (fun s => set__diagnostics (<[(source, uri) := ds]> (_diagnostics s)) s).

(** Modelled from the spec: [RstLanguageServer.clear_diagnostics] (rst.py)
    is not under src/.  It clears only the stored diagnostics of the given
    source and document: the group becomes empty. *)
Definition clear_diagnostics (source uri : string) : Py unit :=
  update (fun s => set__diagnostics (alter (fun _ => []) (source, uri) (_diagnostics s)) s).

(** What the client is shown for a document: the groups of all sources. *)
Definition published_for (store : gmap (string * string) (list Diagnostic)) (uri : string)
    : list Diagnostic :=
  concat (map snd (map_to_list (filter (fun kv => kv.1.2 = uri) store))).

(** Modelled from the spec: [RstLanguageServer.sync_diagnostics] (rst.py) is
    not under src/.  Every document that has a group is published anew; the
    client replaces what it showed for that document. *)
Definition sync_diagnostics : Py unit :=
  update (fun s =>
    let uris : gset string := set_map (fun k : string * string => k.2) (dom (_diagnostics s)) in
    send (map (fun uri => PublishDiagnostics uri (published_for (_diagnostics s) uri))
              (elements uris)) s).

Definition show_message (text : string) (msg_type : MessageType) : Py unit :=
  update (send [ShowMessage text msg_type]).

Definition send_notification (method : string) : Py unit :=
  update (send [SendNotification method]).

(** [self.logger.error(traceback.format_exc())] *)
Definition logger_error (e : exn) : Py unit :=
  update (send [LoggedError e]).

(** *** The indices over the domains *)

(** [fmt.format(name=name, prefix=prefix)], where [fmt] is
    ["{prefix}:{name}"] for a non-empty prefix and ["{name}"] otherwise. *)
Definition qualified (prefix name : string) : string :=
  match prefix with
  | EmptyString => name
  | _ => prefix +:+ ":" +:+ name
  end.

(** The pairs [get_domains] yields for an application. *)
Definition domains_of (a : Sphinx) : list (string * Domain) :=
  map (fun '(name, domain) =>
         let prefix :=
           if String.eqb name "std" || bool_decide (Some name = config_primary_domain a)
           then "" else name in
         (prefix, domain))
      (env_domains a).

(** [SphinxLanguageServer.get_domains] *)
Definition get_domains (s : Server) : list (string * Domain) :=
  match app s with
  | None => []
  | Some a => domains_of a
  end.

(** The two nested loops of [get_roles] and [get_directives]: every entry
    of every domain is stored under its qualified name. *)
Definition merge_entries {V : Type} (entries : Domain -> list (string * V))
    (doms : list (string * Domain)) (table : gmap string V) : gmap string V :=
  fold_left
    (fun table '(prefix, domain) =>
       fold_left (fun table '(name, x) => <[qualified prefix name := x]> table)
                 (entries domain) table)
    doms table.

(** [SphinxLanguageServer.get_roles] *)
Definition get_roles : Py (gmap string RoleSpec) := fun s =>
  match _roles s with
  | Some table => Returned table s
  | None =>
      let table := merge_entries roles (get_domains s) (rst_roles s) in
      Returned table (set_roles (Some table) s)
  end.

(** [SphinxLanguageServer.get_directives] *)
Definition get_directives : Py (gmap string DirectiveSpec) := fun s =>
  match _directives s with
  | Some table => Returned table s
  | None =>
      let table := merge_entries directives (get_domains s) (rst_directives s) in
      Returned table (set_directives (Some table) s)
  end.

(** [d.get(key, [])] *)
Definition get_list {V : Type} (d : gmap string (list V)) (key : string) : list V :=
  default [] (d !! key).

(** The loops of [get_role_target_types]: for every object type of every
    domain and every role of that type, the qualified type is appended to
    the list kept under the qualified role. *)
Definition index_role_target_types (doms : list (string * Domain))
    : gmap string (list string) :=
  fold_left
    (fun table '(prefix, domain) =>
       fold_left
         (fun table '(name, item_roles) =>
            fold_left
              (fun table role =>
                 let role_key := qualified prefix role in
                 let target_types := get_list table role_key ++ [qualified prefix name] in
                 <[role_key := target_types]> table)
              item_roles table)
         (object_types domain) table)
    doms ∅.

(** [SphinxLanguageServer.get_role_target_types] *)
Definition get_role_target_types (name : string) (domain : string) : Py (list string) :=
  fun s =>
    let key := match domain with
               | EmptyString => name
               | _ => domain +:+ ":" +:+ name
               end in
    match _role_target_types s with
    | Some table => Returned (get_list table key) s
    | None =>
        let table := index_role_target_types (get_domains s) in
        Returned (get_list table key) (set_role_target_types (Some table) s)
    end.

(** The loops of [_index_role_targets]. *)
Definition index_role_targets (doms : list (string * Domain))
    : gmap string (list DomainObject) :=
  fold_left
    (fun table '(prefix, domain_obj) =>
       fold_left
         (fun table obj =>
            let obj_key := qualified prefix (obj_type obj) in
            let objects := get_list table obj_key ++ [obj] in
            <[obj_key := objects]> table)
         (get_objects domain_obj) table)
    doms ∅.

(** [SphinxLanguageServer._index_role_targets] *)
Definition _index_role_targets : Py unit :=
  update (fun s => set_role_targets (Some (index_role_targets (get_domains s))) s).

(** [SphinxLanguageServer.get_role_targets] *)
Definition get_role_targets (name : string) (domain : string) : Py (list DomainObject) :=
  _ ← (fun s => match _role_targets s with
                | None => _index_role_targets s
                | Some _ => Returned tt s
                end) : Py unit;
  target_types ← get_role_target_types name domain;
  table ← read _role_targets;
  mret (concat (map (get_list (default ∅ table)) target_types)).

(** [self.app.env]: an [AttributeError] when there is no application. *)
Definition app_env : Py Sphinx := fun s =>
  match app s with
  | Some a => Returned a s
  | None => Raised (AttributeError "'NoneType' object has no attribute 'env'") s
  end.

(** [SphinxLanguageServer.get_intersphinx_projects].  A dictionary is a
    mapping and an order of its keys: [list(inv.keys())] is the keys of the
    inventory in the order the dictionary has them, the empty list for the
    default [{}]. *)
Definition get_intersphinx_projects : Py (list string) :=
  a ← app_env;
  mret (match env_intersphinx_named_inventory a with
        | None => []
        | Some _ => intersphinx_project_names a
        end).

(** One round of the loop of [get_intersphinx_targets]. *)
Definition intersphinx_step (inv : gmap string InventoryEntries) (primary_domain : string)
    (targets : gmap string InventoryEntries) (target_type : string)
    : gmap string InventoryEntries :=
  match inv !! target_type with
  | Some entries => <[target_type := entries]> targets
  | None =>
      match inv !! (primary_domain +:+ ":" +:+ target_type) with
      | Some entries => <[target_type := entries]> targets
      | None =>
          match inv !! ("std:" +:+ target_type) with
          | Some entries => <[target_type := entries]> targets
          | None => targets
          end
      end
  end.

(** [SphinxLanguageServer.get_intersphinx_targets] *)
Definition get_intersphinx_targets (project : string) (name : string) (domain : string)
    : Py (gmap string InventoryEntries) :=
  a ← app_env;
  let inv := default ∅ (env_intersphinx_named_inventory a) in
  match inv !! project with
  | None => mret ∅
  | Some inv =>
      a ← app_env;
      let primary_domain := default "" (config_primary_domain a) in
      target_types ← get_role_target_types name domain;
      mret (fold_left (intersphinx_step inv primary_domain) target_types ∅)
  end.

(** *** What surrounds the server during one call *)

(** One run of [app.build()]: the records Sphinx logs, in order, the change
    the build makes to the application, and the exception it ends with, if
    any. *)
Record BuildRun : Type := {
  emitted : list LogRecord;
  rebuilt : Sphinx -> Sphinx;
  raises : option exn
}.

(** The file system and the build engine, as one handler call meets them.
    [new_Sphinx] stands for the steps of [create_sphinx_app] between the
    discovery of the configuration directory and the installation of the log
    handler: the source and build directories are worked out
    ([get_src_dir], [get_build_dir]) and the application is constructed;
    an exception of any of them leaves [create_sphinx_app] the same way. *)
Record World : Type := {
  glob_conf_py : string -> list string;
  new_Sphinx : pathlike -> SphinxConfig -> result Sphinx;
  once_filter_class : OnceFilterClass;
  build_run : BuildRun
}.

Section Methods.

Context (P : Platform) (W : World).

(** [SphinxLogHandler(app, self)] *)
Definition SphinxLogHandler_new (a : Sphinx) : SphinxLogHandler :=
  {| translator := doc_translate a;
     only_once := OnceFilter_new (once_filter_class W);
     diagnostics := ∅;
     forwarded := [] |}.

(** [SphinxLanguageServer.create_sphinx_app].  Constructing the
    application clears the handlers of the ["sphinx"] logger, so a handler
    installed earlier is no longer attached afterwards. *)
Definition create_sphinx_app (options : InitializationOptions) : Py Sphinx :=
  sphinx ← lift (match sphinx options with
                 | Some c => Ok c
                 | None => Raise (AttributeError "'NoneType' object has no attribute 'dict'")
                 end);
  root_uri ← read workspace_root_uri;
  conf_dir ← lift (find_conf_dir P (glob_conf_py W) root_uri (OfSphinxConfig sphinx));
  match conf_dir with
  | None => raise MissingConfigError
  | Some conf_dir =>
      a ← lift (new_Sphinx W conf_dir sphinx);
      _ ← update (fun s => set_sphinx_log (sphinx_log s) false s);
      hide ← lift (match server options with
                   | Some c => Ok (hide_sphinx_output c)
                   | None =>
                       Raise (AttributeError
                                "'NoneType' object has no attribute 'hide_sphinx_output'")
                   end);
      _ ← (if bool_decide (hide = Some true) then mret tt
           else update (set_sphinx_log (Some (SphinxLogHandler_new a)) true));
      mret a
  end.

(** [SphinxLanguageServer._initialize_sphinx] *)
Definition _initialize_sphinx : Py (option Sphinx) :=
  options ← read user_config;
  try_except
    (a ← create_sphinx_app options; mret (Some a))
    (fun e =>
       match e with
       | MissingConfigError =>
           _ ← show_message
                 "Unable to find your 'conf.py', features that depend on Sphinx will be unavailable"
                 MessageType_Warning;
           mret None
       | _ =>
           _ ← logger_error e;
           _ ← show_message "Unable to initialize Sphinx, see output window for details."
                 MessageType_Error;
           mret None
       end).

(** [self.app.build()] with the handler [h] in [self.sphinx_log]: the
    records at level [INFO] or above reach the handler when it is attached
    to the logger; an exception of the handler leaves the build through
    the logging call. *)
Definition Sphinx_build (run : BuildRun) (attached : bool) (a : Sphinx)
    (h : SphinxLogHandler) : Sphinx * SphinxLogHandler * option exn :=
  let records :=
    if attached then List.filter (fun r => INFO <=? rec_levelno r) (emitted run) else [] in
  match emit_all P records h with
  | (h', Some e) => (rebuilt run a, h', Some e)
  | (h', None) => (rebuilt run a, h', raises run)
  end.

(** The loop that ends [build]: every group the handler collected is
    stored with [set_diagnostics]. *)
Definition store_groups (groups : gmap string (list Diagnostic)) (s : Server) : Server :=
  map_fold (fun doc ds s => state_of (set_diagnostics "sphinx" doc ds s)) s groups.

(** [SphinxLanguageServer.build] *)
Definition build : Py unit := fun s =>
  match app s with
  | None => Returned tt s
  | Some a =>
      let a := set_warncount 0 a in
      let s := set_app (Some a) s in
      match sphinx_log s with
      | None =>
          Raised (AttributeError "'SphinxLanguageServer' object has no attribute 'sphinx_log'") s
      | Some h =>
          let h := set_handler_diagnostics ∅ h in
          let '(a, h, exc) := Sphinx_build (build_run W) (sphinx_log_attached s) a h in
          let s := set_sphinx_log (Some h) (sphinx_log_attached s) (set_app (Some a) s) in
          (_ ← match exc with
               | None => mret tt
               | Some e =>
                   _ ← logger_error e;
                   show_message "Unable to build documentation, see output window for details."
                     MessageType_Error
               end;
           _ ← update (store_groups (diagnostics h));
           _ ← send_notification "esbonio/buildComplete";
           sync_diagnostics) s
      end
  end.

(** Modelled from the spec: [RstLanguageServer.save] (rst.py) is not under
    src/; the spec gives the save handler no step besides those of
    [SphinxLanguageServer.save], so the base method leaves the server as
    it is. *)
Definition RstLanguageServer_save (uri : string) : Py unit := mret tt.

(** [find_conf_dir(...) or ""] *)
Definition or_empty (x : option pathlike) : pathlike :=
  match x with
  | None => AsStr ""
  | Some (AsStr EmptyString) => AsStr ""
  | Some v => v
  end.

(** [SphinxLanguageServer.save]; [uri] is [params.text_document.uri]. *)
Definition save (uri : string) : Py unit :=
  _ ← RstLanguageServer_save uri;
  let filepath := to_fs_path P uri in
  _ ← (if PyStr.endswith "conf.py" filepath then
         current ← read app;
         conf_dir ← match current with
                    | Some a => mret (AsPath (path_join P [confdir a]))
                    | None =>
                        root_uri ← read workspace_root_uri;
                        options ← read user_config;
                        found ← lift (find_conf_dir P (glob_conf_py W) root_uri
                                        (OfInitializationOptions options));
                        mret (or_empty found)
                    end;
         conf_py ← lift (truediv P conf_dir "conf.py");
         if String.eqb (pathlike_str conf_py) filepath then
           a ← _initialize_sphinx;
           update (set_app a)
         else mret tt
       else clear_diagnostics "sphinx" uri);
  build.

(** Modelled from the spec: [RstLanguageServer.initialize] (rst.py) is not
    under src/; nothing is said of it, and it is taken to leave the
    attributes modelled here as they are. *)
Definition RstLanguageServer_initialize : Py unit := mret tt.

(** The call that builds [InitializationOptions] from
    [params.initialization_options] unpacked as keyword arguments, for the
    three kinds of parameters a client can send. *)
Definition InitializationOptions_new (params : InitializationParams)
    : result InitializationOptions :=
  match params with
  | NoOptions => Raise (TypeError "argument after ** must be a mapping, not NoneType")
  | InvalidOptions what => Raise (ValidationError what)
  | Options o => Ok o
  end.

(** [SphinxLanguageServer.initialize]; [params] is
    [params.initialization_options]. *)
Definition initialize (params : InitializationParams) : Py unit :=
  _ ← RstLanguageServer_initialize;
  options ← lift (InitializationOptions_new params);
  _ ← update (set_user_config options);
  a ← _initialize_sphinx;
  _ ← update (set_app a);
  build.

(** [SphinxLanguageServer.initialized] *)
Definition initialized : Py unit := sync_diagnostics.

End Methods.

(** A server as [__init__] leaves it: no application, no log handler, empty
    caches. *)
Definition new_server (root_uri : string) (base_roles : gmap string RoleSpec)
    (base_directives : gmap string DirectiveSpec) : Server :=
  {| app := None;
     user_config := {| sphinx := None; server := None |};
     sphinx_log := None;
     sphinx_log_attached := false;
     _roles := None;
     _directives := None;
     _role_target_types := None;
     _role_targets := None;
     _diagnostics := ∅;
     workspace_root_uri := root_uri;
     rst_roles := base_roles;
     rst_directives := base_directives;
     sent := [] |}.

(** ** Concrete projects, used to run the model *)

Module Sample.

Definition std_domain : Domain :=
  {| roles := [("ref", "std-ref-role"); ("doc", "std-doc-role")];
     directives := [("option", "std-option-directive")];
     object_types := [("label", ["ref"]); ("doc", ["doc"])];
     get_objects := [] |}.

Definition py_domain : Domain :=
  {| roles := [("func", "py-func-role"); ("class", "py-class-role")];
     directives := [("function", "py-function-directive")];
     object_types := [("function", ["func"; "obj"]); ("class", ["class"; "exc"; "obj"])];
     get_objects :=
       [ {| obj_name := "pkg.run"; obj_dispname := "pkg.run"; obj_type := "function";
            obj_docname := "api"; obj_anchor := "pkg.run"; obj_priority := 1 |} ] |}.

Definition c_domain : Domain :=
  {| roles := [("func", "c-func-role"); ("macro", "c-macro-role")];
     directives := [("function", "c-function-directive")];
     object_types := [("function", ["func"]); ("macro", ["macro"])];
     get_objects := [] |}.

Definition inventory : gmap string (gmap string InventoryEntries) :=
  {[ "python" :=
       {[ "function" := [("bare", "https://example.org/bare")];
          "py:function" := [("len", "https://example.org/len")];
          "std:label" := [("genindex", "https://example.org/genindex")] ]} ]}.

(** A project whose domains are [std] and [py], with [py] primary. *)
Definition py_app : Sphinx :=
  {| confdir := "/ws/docs";
     _warncount := 0;
     env_domains := [("std", std_domain); ("py", py_domain)];
     config_primary_domain := Some "py";
     env_intersphinx_named_inventory := Some inventory;
     intersphinx_project_names := ["python"];
     doc_translate := fun r => r |}.

(** The project after [conf.py] was edited: [std] and [c], none primary. *)
Definition c_app : Sphinx :=
  {| confdir := "/ws/docs";
     _warncount := 0;
     env_domains := [("std", std_domain); ("c", c_domain)];
     config_primary_domain := None;
     env_intersphinx_named_inventory := None;
     intersphinx_project_names := [];
     doc_translate := fun r => r |}.

Definition quiet : BuildRun :=
  {| emitted := []; rebuilt := fun a => a; raises := None |}.

Definition warning_at (loc text : string) : LogRecord :=
  {| rec_name := "sphinx.sphinx.environment"; rec_levelno := WARNING;
     rec_msg := text; rec_location := Some loc |}.

Definition error_at (loc text : string) : LogRecord :=
  {| rec_name := "sphinx.sphinx.environment"; rec_levelno := ERROR;
     rec_msg := text; rec_location := Some loc |}.

(** A build that logs the given records and ends as [exc] says. *)
Definition run_with (records : list LogRecord) (exc : option exn) : BuildRun :=
  {| emitted := records; rebuilt := fun a => a; raises := exc |}.

(** A workspace with one [conf.py], in which constructing the application
    gives [a], and where the next build runs as [run]. *)
Definition world (filter_class : OnceFilterClass) (a : Sphinx) (run : BuildRun) : World :=
  {| glob_conf_py := fun _ => ["/ws/docs/conf.py"];
     new_Sphinx := fun _ _ => Ok a;
     once_filter_class := filter_class;
     build_run := run |}.

(** A workspace without any [conf.py]. *)
Definition empty_world : World :=
  {| glob_conf_py := fun _ => [];
     new_Sphinx := fun _ _ => Raise (EngineError "no project");
     once_filter_class := FallbackOnceFilter;
     build_run := quiet |}.

Definition default_sphinx_config : SphinxConfig :=
  {| version := None; conf_dir := None; src_dir := None; build_dir := None;
     builder_name := "html" |}.

Definition options (hide : option bool) : InitializationOptions :=
  {| sphinx := Some default_sphinx_config;
     server := Some {| hide_sphinx_output := hide |} |}.

Definition fresh : Server := new_server "file:///ws" ∅ ∅.

(** The server once [initialize] has run in a workspace. *)
Definition started (W : World) (hide : option bool) : Outcome unit :=
  initialize Posix.platform W (Options (options hide)) fresh.

Definition handler (filter_class : OnceFilterClass) : SphinxLogHandler :=
  {| translator := fun r => r;
     only_once := OnceFilter_new filter_class;
     diagnostics := ∅;
     forwarded := [] |}.

(** A warning about a missing label in [a.rst]. *)
Definition label_warning : LogRecord := warning_at "/ws/docs/a.rst:3" "undefined label".

Definition label_diagnostic : Diagnostic := make_diagnostic 3 label_warning.

(** The project builds without a word. *)
Definition quiet_world : World := world FallbackOnceFilter py_app quiet.


(** The build reports the missing label and then fails. *)
Definition failing_world : World :=
  world FallbackOnceFilter py_app (run_with [label_warning] (Some (EngineError "boom"))).

(** [conf.py] now declares the [c] domain instead of [py]. *)
Definition edited_world : World := world FallbackOnceFilter c_app quiet.

(** A project whose primary domain is [js]: it has functions too, but the
    role that refers to them is [meth], and it has no role [func]. *)
Definition widget : DomainObject :=
  {| obj_name := "Widget"; obj_dispname := "Widget"; obj_type := "function";
     obj_docname := "ui"; obj_anchor := "Widget"; obj_priority := 1 |}.

Definition js_domain : Domain :=
  {| roles := [("meth", "js-meth-role")];
     directives := [("function", "js-function-directive")];
     object_types := [("function", ["meth"])];
     get_objects := [widget] |}.

Definition js_app : Sphinx :=
  {| confdir := "/ws/docs";
     _warncount := 0;
     env_domains := [("std", std_domain); ("js", js_domain)];
     config_primary_domain := Some "js";
     env_intersphinx_named_inventory := None;
     intersphinx_project_names := [];
     doc_translate := fun r => r |}.

(** [conf.py] now makes the project a [js] one. *)
Definition js_world : World := world FallbackOnceFilter js_app quiet.

End Sample.

(** ** What the spec calls a placeholder

    The spec speaks of a string that begins with a [${NAME}] placeholder.
    This is that notion written down independently of the matcher above: a
    dollar sign, a brace, a non-empty name of word characters, a closing
    brace, and anything after. *)

Fixpoint all_word (s : string) : bool :=
  match s with
  | EmptyString => true
  | String c s' => is_word c && all_word s'
  end.

Definition begins_with_placeholder (x name : string) : Prop :=
  name <> "" /\ all_word name = true /\ exists rest, x = "${" +:+ name +:+ "}" +:+ rest.

(** The trailing segments of a location that give a line number: exactly
    one, and an integer. *)
Definition trailing_lineno (P : Platform) (parts : list string) : option Z :=
  match parts with
  | [p0] => PyStr.int (int_other P) p0
  | _ => None
  end.

(** The inventory entry a target type resolves to: the first of the bare
    key, the key under the primary domain and the key under [std] that the
    inventory has. *)
Definition first_match (inv : gmap string InventoryEntries) (primary_domain : string)
    (target_type : string) : option InventoryEntries :=
  match inv !! target_type with
  | Some entries => Some entries
  | None =>
      match inv !! (primary_domain +:+ ":" +:+ target_type) with
      | Some entries => Some entries
      | None => inv !! ("std:" +:+ target_type)
      end
  end.

(** The records [emit] extracts a diagnostic from: logged by Sphinx, at
    the level of a warning or of an error. *)
Definition extracted (record : LogRecord) : bool :=
  PyStr.contains "sphinx" (rec_name record)
  && (Z.eqb (rec_levelno record) WARNING || Z.eqb (rec_levelno record) ERROR).

(** What [app.build()] leaves when [build] runs on a server whose
    application is [a] and whose handler is [h]: the application, the
    handler with the groups it collected, and the exception if the attempt
    failed. *)
Definition build_attempt (P : Platform) (W : World) (s : Server) (a : Sphinx)
    (h : SphinxLogHandler) : Sphinx * SphinxLogHandler * option exn :=
  Sphinx_build P (build_run W) (sphinx_log_attached s) (set_warncount 0 a)
    (set_handler_diagnostics ∅ h).

(** The server when [build] returns, given what the attempt left. *)
Definition after_build (s : Server) (a' : Sphinx) (h' : SphinxLogHandler)
    (exc : option exn) (store : gmap (string * string) (list Diagnostic)) : Server :=
  let s1 := set_sphinx_log (Some h') (sphinx_log_attached s) (set_app (Some a') s) in
  let s2 :=
    match exc with
    | None => s1
    | Some e =>
        send [ShowMessage "Unable to build documentation, see output window for details."
                MessageType_Error]
             (send [LoggedError e] s1)
    end in
  let s3 := send [SendNotification "esbonio/buildComplete"] (set__diagnostics store s2) in
  let uris : gset string := set_map (fun k : string * string => k.2) (dom store) in
  send (map (fun uri => PublishDiagnostics uri (published_for store uri)) (elements uris)) s3.

(** The caches of the indices, with the base tables they start from. *)
Definition caches (s : Server)
    : option (gmap string RoleSpec) * option (gmap string DirectiveSpec)
      * option (gmap string (list string)) * option (gmap string (list DomainObject))
      * gmap string RoleSpec * gmap string DirectiveSpec :=
  (_roles s, _directives s, _role_target_types s, _role_targets s,
   rst_roles s, rst_directives s).

(** A method that leaves the caches as they are, however it ends. *)
Definition keeps_caches {A : Type} (m : Py A) : Prop :=
  forall s, caches (state_of (m s)) = caches s.

(** The key [get_role_target_types] looks up: the role name, behind the
    domain and a colon when a domain is given. *)
Definition role_key (name domain : string) : string :=
  match domain with
  | EmptyString => name
  | _ => domain +:+ ":" +:+ name
  end.

(** A diagnostic that covers one whole line: from column 0 of a line to
    column 0 of the next, the next never being line 0. *)
Definition one_line (d : Diagnostic) : Prop :=
  character (start (range d)) = 0
  /\ character (end_ (range d)) = 0
  /\ line (end_ (range d)) = line (start (range d)) + 1
  /\ line (end_ (range d)) <> 0.

(** ** The indices, said without loops

    What the loops over the domains compute, written as lists: the entries
    of all domains under their qualified names, in the order the loops meet
    them. *)

Definition qualified_entries {V : Type} (entries : Domain -> list (string * V))
    (doms : list (string * Domain)) : list (string * V) :=
  flat_map (fun '(prefix, domain) =>
              map (fun '(name, x) => (qualified prefix name, x)) (entries domain))
           doms.

(** The value of the last pair of the list that has the key. *)
Fixpoint last_entry {V : Type} (key : string) (l : list (string * V)) : option V :=
  match l with
  | [] => None
  | (k, x) :: rest =>
      match last_entry key rest with
      | Some y => Some y
      | None => if String.eqb k key then Some x else None
      end
  end.

(** The values of the pairs that have the key, in the order of the list. *)
Definition grouped {V : Type} (key : string) (l : list (string * V)) : list V :=
  map snd (List.filter (fun kv => String.eqb kv.1 key) l).

(** For every role of every object type of every domain: the qualified role
    with the qualified object type. *)
Definition target_type_pairs (doms : list (string * Domain)) : list (string * string) :=
  flat_map (fun '(prefix, domain) =>
              flat_map (fun '(name, item_roles) =>
                          map (fun role => (qualified prefix role, qualified prefix name))
                              item_roles)
                       (object_types domain))
           doms.

(** For every object of every domain: its qualified type with the object. *)
Definition object_pairs (doms : list (string * Domain)) : list (string * DomainObject) :=
  flat_map (fun '(prefix, domain) =>
              map (fun obj => (qualified prefix (obj_type obj), obj)) (get_objects domain))
           doms.

(** ** get_src_dir *)

(** [get_src_dir].  [conf_dir] is what [find_conf_dir] returned, a string or
    a path; the result is the one or the other as well. *)
Definition get_src_dir (P : Platform) (root_uri : string) (conf_dir : pathlike)
    (config : SphinxConfig) : pathlike :=
  match str_truthy (src_dir config) with
  | None => conf_dir
  | Some src_dir =>
      let root_dir := to_fs_path P root_uri in
      let matched := PATH_VAR_PATTERN_match src_dir in
      if bool_decide (matched = Some "workspaceRoot") then
        let src := tail (path_parts P src_dir) in
        AsPath (path_resolve P (path_join P (root_dir :: src)))
      else if bool_decide (matched = Some "confDir") then
        let src := tail (path_parts P src_dir) in
        AsPath (path_resolve P (path_join P (pathlike_str conf_dir :: src)))
      else AsStr src_dir
  end.

(** A candidate that [find_conf_dir] skips: its path contains [.tox] or
    [site-packages] somewhere. *)
Definition ignored (candidate : string) : Prop :=
  PyStr.contains ".tox" candidate = true \/ PyStr.contains "site-packages" candidate = true.

(** * Properties *)

(** ** Strings *)

Example split_posix : PyStr.split ":" "/doc/index.rst:42" = ["/doc/index.rst"; "42"].
Proof. reflexivity. Qed.

Example split_plain : PyStr.split ":" "/doc/index.rst" = ["/doc/index.rst"].
Proof. reflexivity. Qed.

Example int_examples (other : string -> option Z) :
  PyStr.int other "42" = Some 42 /\ PyStr.int other " 7 " = Some 7
  /\ PyStr.int other "-3" = Some (-3) /\ PyStr.int other "007" = Some 7
  /\ PyStr.int other "1_000" = Some 1000 /\ PyStr.int other "4x" = None
  /\ PyStr.int other "" = None /\ PyStr.int other "_1" = None
  /\ PyStr.int other "1__0" = None /\ PyStr.int other "+ 1" = None
  /\ PyStr.int other "docstring of a.b" = None
  /\ PyStr.int other (String (ascii_of_nat 28) "42") = None
  /\ PyStr.int other (String (ascii_of_nat 12) "42") = Some 42
  /\ PyStr.int other (String (ascii_of_nat 160) "42")
     = other (String (ascii_of_nat 160) "42").
Proof. repeat split; reflexivity. Qed.


Lemma split_lacks sep s : PyStr.lacks sep s = true -> PyStr.split sep s = [s].
Proof.
  induction s as [|c s' IH]; simpl; [reflexivity|].
  intros H. apply andb_true_iff in H as [Hc Hs].
  apply negb_true_iff in Hc. rewrite Hc, (IH Hs). reflexivity.
Qed.

Lemma split_append sep p rest :
  PyStr.lacks sep p = true ->
  PyStr.split sep (p +:+ String sep rest) = p :: PyStr.split sep rest.
Proof.
  induction p as [|c p' IH]; simpl.
  - intros _. rewrite Ascii.eqb_refl. reflexivity.
  - intros H. apply andb_true_iff in H as [Hc Hp].
    apply negb_true_iff in Hc. rewrite Hc, (IH Hp). reflexivity.
Qed.

Lemma split_join (segs : list string) :
  segs <> [] ->
  Forall (fun x => PyStr.lacks ":" x = true) segs ->
  PyStr.split ":" (PyStr.join ":" segs) = segs.
Proof.
  induction segs as [|p rest IH]; [congruence|].
  intros _ Hall. inversion Hall as [|? ? Hp Hrest]; subst.
  destruct rest as [|q rest'].
  - simpl. apply split_lacks; assumption.
  - change (PyStr.join ":" (p :: q :: rest'))
      with (p +:+ String ":" (PyStr.join ":" (q :: rest'))).
    rewrite split_append by assumption.
    rewrite IH by (assumption || discriminate). reflexivity.
Qed.

(** ** get_location *)

(** What [get_location] returns on a location made of colon-free segments,
    on either kind of platform. *)
Lemma get_location_segments (P : Platform) (path : string) (parts : list string) :
  Forall (fun x => PyStr.lacks ":" x = true) (path :: parts) ->
  get_location P (PyStr.join ":" (path :: parts)) =
    if IS_WIN P then
      match parts with
      | [] => Raise (IndexError "pop from empty list")
      | p0 :: rest => Ok (from_fs_path P (path +:+ ":" +:+ p0), trailing_lineno P rest)
      end
    else Ok (from_fs_path P path, trailing_lineno P parts).
Proof.
  intros Hall. unfold get_location.
  rewrite split_join by (assumption || discriminate).
  destruct (IS_WIN P); [destruct parts|]; reflexivity.
Qed.

Lemma emit_rejected (P : Platform) (record : LogRecord) (h : SphinxLogHandler) :
  extracted record = true ->
  (OnceFilter_filter (only_once h) record).1 = false ->
  emit P record h = (set_only_once (OnceFilter_filter (only_once h) record).2 h, None).
Proof.
  unfold extracted, emit. intros Hex Hrej.
  apply andb_true_iff in Hex as [Hname Hlevel].
  simpl. rewrite Hname, Hlevel. simpl.
  destruct (OnceFilter_filter (only_once h) record) as [accepted f].
  simpl in Hrej. subst accepted. reflexivity.
Qed.

Lemma emit_accepted (P : Platform) (record : LogRecord) (h : SphinxLogHandler)
    (loc doc : string) (lineno : option Z) :
  extracted record = true ->
  (OnceFilter_filter (only_once h) record).1 = true ->
  rec_location (translator h record) = Some loc ->
  get_location P loc = Ok (doc, lineno) ->
  emit P record h =
    (LspHandler_emit (translator h record)
       (set_handler_diagnostics
          (<[doc := get_list (diagnostics h) doc
                    ++ [make_diagnostic (or_1 lineno) (translator h record)]]>
             (diagnostics h))
          (set_only_once (OnceFilter_filter (only_once h) record).2 h)),
     None).
Proof.
  unfold extracted, emit. intros Hex Hacc Hloc Hget.
  apply andb_true_iff in Hex as [Hname Hlevel].
  simpl. rewrite Hname, Hlevel. simpl.
  destruct (OnceFilter_filter (only_once h) record) as [accepted f].
  simpl in Hacc. subst accepted. simpl.
  rewrite Hloc, Hget. unfold get_list.
  destruct (diagnostics h !! doc); reflexivity.
Qed.

(** C5. [get_location] splits the location on [":"].  Where [IS_WIN] is
    false, ["/doc/index.rst:42"] gives the URI of [/doc/index.rst] and line
    42, and ["/doc/index.rst"] gives no line number.  Where [IS_WIN] is
    true, ["C:\doc\index.rst:42"] gives the URI of [C:\doc\index.rst] and
    line 42, the drive letter being joined back to the path.  On both, a
    single trailing segment that [int] rejects, and two or more trailing
    segments, give no line number.  [emit] puts the diagnostic of a record
    it accepts at the end of the list of the document [get_location] gives,
    with the message of the record: without a line number it covers line 1
    (from line 0 to line 1, counted from zero), and with line 42 it goes
    from line 41 to line 42. *)
Theorem get_location_parses_locations (P : Platform) :
  (IS_WIN P = false ->
     get_location P "/doc/index.rst:42" = Ok (from_fs_path P "/doc/index.rst", Some 42)
     /\ get_location P "/doc/index.rst" = Ok (from_fs_path P "/doc/index.rst", None))
  /\ (forall (h : SphinxLogHandler) (record : LogRecord) (loc doc : string)
             (lineno : option Z),
        extracted record = true ->
        (OnceFilter_filter (only_once h) record).1 = true ->
        rec_location (translator h record) = Some loc ->
        get_location P loc = Ok (doc, lineno) ->
        exists h' d,
          emit P record h = (h', None)
          /\ diagnostics h' !! doc = Some (get_list (diagnostics h) doc ++ [d])
          /\ message d = rec_msg (translator h record)
          /\ (lineno = None ->
              range d = {| start := {| line := 0; character := 0 |};
                           end_ := {| line := 1; character := 0 |} |})
          /\ (lineno = Some 42 ->
              range d = {| start := {| line := 41; character := 0 |};
                           end_ := {| line := 42; character := 0 |} |}))
  /\ (IS_WIN P = true ->
        get_location P "C:\doc\index.rst:42" = Ok (from_fs_path P "C:\doc\index.rst", Some 42))
  /\ (forall path seg,
        IS_WIN P = false ->
        PyStr.lacks ":" path = true -> PyStr.lacks ":" seg = true ->
        PyStr.int (int_other P) seg = None ->
        get_location P (path +:+ ":" +:+ seg) = Ok (from_fs_path P path, None))
  /\ (forall path seg1 seg2 more,
        IS_WIN P = false ->
        Forall (fun x => PyStr.lacks ":" x = true) (path :: seg1 :: seg2 :: more) ->
        get_location P (PyStr.join ":" (path :: seg1 :: seg2 :: more))
        = Ok (from_fs_path P path, None))
  /\ (forall drive path seg,
        IS_WIN P = true ->
        Forall (fun x => PyStr.lacks ":" x = true) [drive; path; seg] ->
        PyStr.int (int_other P) seg = None ->
        get_location P (PyStr.join ":" [drive; path; seg])
        = Ok (from_fs_path P (drive +:+ ":" +:+ path), None))
  /\ (forall drive path seg1 seg2 more,
        IS_WIN P = true ->
        Forall (fun x => PyStr.lacks ":" x = true) (drive :: path :: seg1 :: seg2 :: more) ->
        get_location P (PyStr.join ":" (drive :: path :: seg1 :: seg2 :: more))
        = Ok (from_fs_path P (drive +:+ ":" +:+ path), None)).
Proof.
  repeat apply conj.
  - intros Hwin. unfold get_location. rewrite Hwin. split; reflexivity.
  - intros h record loc doc lineno Hex Hacc Hloc Hget.
    rewrite (emit_accepted P record h loc doc lineno Hex Hacc Hloc Hget).
    eexists _, (make_diagnostic (or_1 lineno) (translator h record)).
    split; [reflexivity|]. repeat apply conj.
    + simpl. apply lookup_insert_eq.
    + reflexivity.
    + intros ->. reflexivity.
    + intros ->. reflexivity.
  - intros Hwin. unfold get_location. rewrite Hwin. reflexivity.
  - intros path seg Hwin Hpath Hseg Hint.
    change (path +:+ ":" +:+ seg) with (PyStr.join ":" [path; seg]).
    rewrite get_location_segments by (repeat constructor; assumption).
    rewrite Hwin. simpl. rewrite Hint. reflexivity.
  - intros path seg1 seg2 more Hwin Hall.
    rewrite get_location_segments by assumption.
    rewrite Hwin. reflexivity.
  - intros drive path seg Hwin Hall Hint.
    rewrite get_location_segments by assumption.
    rewrite Hwin. simpl. rewrite Hint. reflexivity.
  - intros drive path seg1 seg2 more Hwin Hall.
    rewrite get_location_segments by assumption.
    rewrite Hwin. reflexivity.
Qed.

Lemma get_location_parses_locations_witness :
  let no_line := Sample.warning_at "/doc/index.rst" "title too short" in
  let line_42 := Sample.warning_at "/doc/index.rst:42" "undefined label" in
  let uri := from_fs_path Posix.platform "/doc/index.rst" in
  (get_location Posix.platform "/doc/index.rst:42" = Ok (uri, Some 42)
   /\ get_location Posix.platform "/doc/index.rst" = Ok (uri, None))
  /\ (exists h' d,
        emit Posix.platform no_line (Sample.handler FallbackOnceFilter) = (h', None)
        /\ diagnostics h' !! uri = Some [d]
        /\ message d = "title too short"
        /\ range d = {| start := {| line := 0; character := 0 |};
                        end_ := {| line := 1; character := 0 |} |})
  /\ (exists h' d,
        emit Posix.platform line_42 (Sample.handler FallbackOnceFilter) = (h', None)
        /\ diagnostics h' !! uri = Some [d]
        /\ range d = {| start := {| line := 41; character := 0 |};
                        end_ := {| line := 42; character := 0 |} |})
  /\ get_location Posix.windows_flag "C:\doc\index.rst:42"
     = Ok (from_fs_path Posix.windows_flag "C:\doc\index.rst", Some 42)
  /\ get_location Posix.platform "/doc/index.rst:docstring of pkg.run" = Ok (uri, None)
  /\ get_location Posix.platform "/pkg/run.py:docstring of pkg.run:8"
     = Ok (from_fs_path Posix.platform "/pkg/run.py", None)
  /\ get_location Posix.windows_flag "C:\pkg\run.py:docstring of pkg.run:8"
     = Ok (from_fs_path Posix.windows_flag "C:\pkg\run.py", None).
Proof.
  intros no_line line_42 uri.
  pose proof (get_location_parses_locations Posix.platform)
    as (Hposix & Hemit & _ & Hone & Hmany & _ & _).
  pose proof (get_location_parses_locations Posix.windows_flag)
    as (_ & _ & Hwin & _ & _ & _ & Hwmany).
  repeat apply conj.
  - apply Hposix. reflexivity.
  - apply Hposix. reflexivity.
  - destruct (Hemit (Sample.handler FallbackOnceFilter) no_line "/doc/index.rst" uri None
                eq_refl eq_refl eq_refl eq_refl) as (h' & d & He & Hd & Hm & Hr & _).
    exists h', d. repeat apply conj; [exact He | exact Hd | exact Hm | apply Hr; reflexivity].
  - destruct (Hemit (Sample.handler FallbackOnceFilter) line_42 "/doc/index.rst:42" uri
                (Some 42) eq_refl eq_refl eq_refl eq_refl)
      as (h' & d & He & Hd & _ & _ & Hr).
    exists h', d. repeat apply conj; [exact He | exact Hd | apply Hr; reflexivity].
  - apply Hwin. reflexivity.
  - apply (Hone "/doc/index.rst" "docstring of pkg.run"); reflexivity.
  - apply (Hmany "/pkg/run.py" "docstring of pkg.run" "8" []);
      [reflexivity | repeat constructor].
  - apply (Hwmany "C" "\pkg\run.py" "docstring of pkg.run" "8" []);
      [reflexivity | repeat constructor].
Defined.

(** ** The severity of a diagnostic *)

(** C3. The keys of [DIAGNOSTIC_SEVERITY] are the strings ["WARNING"] and
    ["ERROR"], and [emit] looks the table up with [record.levelno], an
    integer: no key is ever found, so the severity is [Warning] for every
    record, a record logged at [ERROR] included. *)
Theorem error_record_reported_as_warning :
  (forall levelno : Z,
     dict_get DIAGNOSTIC_SEVERITY (KInt levelno) Severity_Warning = Severity_Warning)
  /\ (forall ln record, severity (make_diagnostic ln record) = Severity_Warning)
  /\ dict_get DIAGNOSTIC_SEVERITY (KStr "ERROR") Severity_Warning = Severity_Error
  /\ emit Posix.platform (Sample.error_at "/doc/index.rst:42" "broken")
          (Sample.handler FallbackOnceFilter)
     = ({| translator := fun r => r;
           only_once := OnceFilter_new FallbackOnceFilter;
           diagnostics :=
             {[ "file:///doc/index.rst" :=
                  [ {| range := {| start := {| line := 41; character := 0 |};
                                   end_ := {| line := 42; character := 0 |} |};
                       message := "broken";
                       severity := Severity_Warning |} ] ]};
           forwarded := [Sample.error_at "/doc/index.rst:42" "broken"] |},
        None).
Proof.
  repeat apply conj; reflexivity.
Qed.

(** ** expand_conf_dir *)

Lemma take_word_spec s w rest :
  take_word s = (w, rest) ->
  s = w +:+ rest /\ all_word w = true
  /\ match rest with
     | EmptyString => True
     | String c _ => is_word c = false
     end.
Proof.
  revert w rest. induction s as [|c s' IH]; simpl; intros w rest H.
  - inversion H; subst. repeat split.
  - destruct (is_word c) eqn:Hc.
    + destruct (take_word s') as [w' rest'] eqn:Ht.
      inversion H; subst.
      destruct (IH w' rest eq_refl) as (-> & Hw & Hr).
      simpl. rewrite Hc, Hw. repeat split. exact Hr.
    + inversion H; subst. simpl. repeat split. exact Hc.
Qed.

Lemma take_word_append w rest :
  all_word w = true ->
  match rest with
  | EmptyString => True
  | String c _ => is_word c = false
  end ->
  take_word (w +:+ rest) = (w, rest).
Proof.
  induction w as [|c w' IH]; simpl; intros Hw Hr.
  - destruct rest as [|c r]; simpl; [reflexivity|]. rewrite Hr. reflexivity.
  - apply andb_true_iff in Hw as [Hc Hw]. rewrite Hc, (IH Hw Hr). reflexivity.
Qed.

(** The matcher written from the regular expression finds a group exactly
    where the string begins with a placeholder of that name. *)
Lemma PATH_VAR_PATTERN_match_spec x name :
  PATH_VAR_PATTERN_match x = Some name <-> begins_with_placeholder x name.
Proof.
  unfold PATH_VAR_PATTERN_match, begins_with_placeholder. split.
  - destruct x as [|c0 x]; [discriminate|].
    destruct c0 as [[] [] [] [] [] [] [] []]; try discriminate.
    destruct x as [|c1 x]; [discriminate|].
    destruct c1 as [[] [] [] [] [] [] [] []]; try discriminate.
    destruct (take_word x) as [w rest] eqn:Ht.
    destruct (take_word_spec _ _ _ Ht) as (-> & Hw & _).
    destruct w as [|cw w]; [discriminate|].
    destruct rest as [|c2 rest]; [discriminate|].
    destruct c2 as [[] [] [] [] [] [] [] []]; try discriminate.
    intros H; inversion H; subst.
    split; [discriminate|]. split; [exact Hw|].
    exists rest. reflexivity.
  - intros (Hne & Hw & rest & ->).
    change ("${" +:+ name +:+ "}" +:+ rest)
      with (String "$" (String "{" (name +:+ String "}" rest))).
    cbv beta iota.
    rewrite (take_word_append name (String "}" rest) Hw) by reflexivity.
    destruct name; [congruence|reflexivity].
Qed.

Lemma PATH_VAR_PATTERN_match_none x :
  PATH_VAR_PATTERN_match x = None <-> forall name, ~ begins_with_placeholder x name.
Proof.
  split.
  - intros Hnone name Hb. apply PATH_VAR_PATTERN_match_spec in Hb. congruence.
  - intros Hno. destruct (PATH_VAR_PATTERN_match x) as [name|] eqn:Hm; [|reflexivity].
    exfalso. apply (Hno name). apply PATH_VAR_PATTERN_match_spec. exact Hm.
Qed.

(** C8. [expand_conf_dir] returns its input as it is when the input does
    not begin with a [${NAME}] placeholder, and also when it begins with a
    placeholder whose name is not [workspaceRoot]; a placeholder further
    inside the string is not looked at.  Only an input that begins with
    [${workspaceRoot}] is expanded. *)
Theorem expand_conf_dir_verbatim (P : Platform) (root_dir x : string) :
  ((forall name, ~ begins_with_placeholder x name) ->
     expand_conf_dir P root_dir x = AsStr x)
  /\ (forall name,
        begins_with_placeholder x name -> name <> "workspaceRoot" ->
        expand_conf_dir P root_dir x = AsStr x)
  /\ (PyStr.startswith "${" x = false -> expand_conf_dir P root_dir x = AsStr x)
  /\ (begins_with_placeholder x "workspaceRoot" ->
        expand_conf_dir P root_dir x
        = AsPath (path_resolve P (path_join P (root_dir :: tail (path_parts P x))))).
Proof.
  repeat apply conj.
  - intros Hno. apply PATH_VAR_PATTERN_match_none in Hno.
    unfold expand_conf_dir. rewrite Hno. reflexivity.
  - intros name Hb Hname. apply PATH_VAR_PATTERN_match_spec in Hb.
    unfold expand_conf_dir. rewrite Hb.
    destruct (String.eqb_spec name "workspaceRoot"); [contradiction|reflexivity].
  - intros Hstart. unfold expand_conf_dir.
    destruct (PATH_VAR_PATTERN_match x) as [name|] eqn:Hm; [|reflexivity].
    apply PATH_VAR_PATTERN_match_spec in Hm as (_ & _ & rest & ->).
    simpl in Hstart. discriminate.
  - intros Hb. apply PATH_VAR_PATTERN_match_spec in Hb.
    unfold expand_conf_dir. rewrite Hb. reflexivity.
Qed.

Lemma expand_conf_dir_verbatim_witness :
  expand_conf_dir Posix.platform "/ws" "docs" = AsStr "docs"
  /\ expand_conf_dir Posix.platform "/ws" "${confDir}/docs" = AsStr "${confDir}/docs"
  /\ expand_conf_dir Posix.platform "/ws" "docs/${workspaceRoot}/api"
     = AsStr "docs/${workspaceRoot}/api"
  /\ expand_conf_dir Posix.platform "/ws" "${workspaceRoot}/docs" = AsPath "/ws/docs".
Proof.
  repeat apply conj.
  - apply (proj1 (expand_conf_dir_verbatim Posix.platform "/ws" "docs")).
    apply PATH_VAR_PATTERN_match_none. reflexivity.
  - apply (proj1 (proj2 (expand_conf_dir_verbatim Posix.platform "/ws" "${confDir}/docs")))
      with "confDir".
    + split; [discriminate|]. split; [reflexivity|]. exists "/docs". reflexivity.
    + discriminate.
  - apply (proj1 (proj2 (proj2
             (expand_conf_dir_verbatim Posix.platform "/ws" "docs/${workspaceRoot}/api")))).
    reflexivity.
  - apply (proj2 (proj2 (proj2
             (expand_conf_dir_verbatim Posix.platform "/ws" "${workspaceRoot}/docs")))).
    split; [discriminate|]. split; [reflexivity|]. exists "/docs". reflexivity.
Defined.

(** ** Running a method step by step *)

Lemma Py_bind_returned {A B : Type} (m : Py A) (k : A -> Py B) s a s' :
  m s = Returned a s' -> (m ≫= k) s = k a s'.
Proof. intros H. unfold mbind, Py_bind. rewrite H. reflexivity. Qed.

Lemma Py_bind_raised {A B : Type} (m : Py A) (k : A -> Py B) s e s' :
  m s = Raised e s' -> (m ≫= k) s = Raised e s'.
Proof. intros H. unfold mbind, Py_bind. rewrite H. reflexivity. Qed.

Lemma app_env_some s a : app s = Some a -> app_env s = Returned a s.
Proof. intros H. unfold app_env. rewrite H. reflexivity. Qed.

(** ** Intersphinx *)

Lemma intersphinx_step_lookup inv primary_domain targets target_type t :
  intersphinx_step inv primary_domain targets target_type !! t =
    if decide (t = target_type) then
      match first_match inv primary_domain t with
      | Some entries => Some entries
      | None => targets !! t
      end
    else targets !! t.
Proof.
  unfold intersphinx_step, first_match.
  destruct (decide (t = target_type)) as [->|Hne].
  - destruct (inv !! target_type); [apply lookup_insert_eq|].
    destruct (inv !! (primary_domain +:+ ":" +:+ target_type)); [apply lookup_insert_eq|].
    destruct (inv !! ("std:" +:+ target_type)); [apply lookup_insert_eq|reflexivity].
  - destruct (inv !! target_type); [apply lookup_insert_ne; congruence|].
    destruct (inv !! (primary_domain +:+ ":" +:+ target_type));
      [apply lookup_insert_ne; congruence|].
    destruct (inv !! ("std:" +:+ target_type));
      [apply lookup_insert_ne; congruence|reflexivity].
Qed.

Lemma intersphinx_fold_lookup inv primary_domain (types : list string) :
  forall (targets : gmap string InventoryEntries) (t : string),
    fold_left (intersphinx_step inv primary_domain) types targets !! t =
      if decide (t ∈ types) then
        match first_match inv primary_domain t with
        | Some entries => Some entries
        | None => targets !! t
        end
      else targets !! t.
Proof.
  induction types as [|ty types IH]; intros targets t; simpl.
  - destruct (decide (t ∈ [])) as [Hin|_]; [|reflexivity].
    apply elem_of_nil in Hin. contradiction.
  - rewrite IH, intersphinx_step_lookup.
    destruct (decide (t ∈ types)) as [Hin|Hnin];
      destruct (decide (t = ty)) as [->|Hne];
      destruct (decide (_ ∈ ty :: types)) as [Hin'|Hnin'];
      try reflexivity;
      try (exfalso; apply Hnin'; set_solver);
      try (destruct (first_match inv primary_domain _); reflexivity).
    exfalso. apply elem_of_cons in Hin' as [?|?]; contradiction.
Qed.

Lemma get_role_target_types_returns name domain s :
  exists types s', get_role_target_types name domain s = Returned types s'
                   /\ app s' = app s.
Proof.
  unfold get_role_target_types.
  destruct (_role_target_types s); eauto.
Qed.

(** C7. For every target type that [get_role_target_types] gives for the
    role, [get_intersphinx_targets] takes the entry of the named inventory
    under the bare type if there is one, else the entry under the type
    prefixed with the primary domain, else the entry under the type prefixed
    with [std]; a type with none of the three, and every other key, is absent
    from the result.  So when the inventory has both the bare and the
    prefixed key, the entry of the bare key is returned. *)
Theorem intersphinx_lookup_priority (s : Server) (a : Sphinx)
    (named : gmap string (gmap string InventoryEntries))
    (inv : gmap string InventoryEntries) (project name domain : string) :
  app s = Some a ->
  env_intersphinx_named_inventory a = Some named ->
  named !! project = Some inv ->
  exists types s' targets,
    get_role_target_types name domain s = Returned types s'
    /\ get_intersphinx_targets project name domain s = Returned targets s'
    /\ (forall t,
          targets !! t =
            if decide (t ∈ types) then
              match inv !! t with
              | Some entries => Some entries
              | None =>
                  match inv !! (default "" (config_primary_domain a) +:+ ":" +:+ t) with
                  | Some entries => Some entries
                  | None => inv !! ("std:" +:+ t)
                  end
              end
            else None)
    /\ (forall t bare prefixed,
          t ∈ types ->
          inv !! t = Some bare ->
          inv !! (default "" (config_primary_domain a) +:+ ":" +:+ t) = Some prefixed ->
          targets !! t = Some bare).
Proof.
  intros Happ Hnamed Hproject.
  destruct (get_role_target_types_returns name domain s) as (types & s' & Hget & _).
  exists types, s', (fold_left (intersphinx_step inv (default "" (config_primary_domain a)))
                       types ∅).
  assert (Hlookup : forall t,
    fold_left (intersphinx_step inv (default "" (config_primary_domain a))) types ∅ !! t =
      if decide (t ∈ types) then
        match inv !! t with
        | Some entries => Some entries
        | None =>
            match inv !! (default "" (config_primary_domain a) +:+ ":" +:+ t) with
            | Some entries => Some entries
            | None => inv !! ("std:" +:+ t)
            end
        end
      else None).
  { intros t. rewrite intersphinx_fold_lookup. unfold first_match.
    rewrite lookup_empty.
    destruct (decide (t ∈ types)); [|reflexivity].
    destruct (inv !! t); [reflexivity|].
    destruct (inv !! (default "" (config_primary_domain a) +:+ ":" +:+ t)); [reflexivity|].
    destruct (inv !! ("std:" +:+ t)); reflexivity. }
  split; [exact Hget|]. split.
  - unfold get_intersphinx_targets.
    rewrite (Py_bind_returned _ _ _ _ _ (app_env_some _ _ Happ)).
    rewrite Hnamed. simpl. rewrite Hproject.
    rewrite (Py_bind_returned _ _ _ _ _ (app_env_some _ _ Happ)).
    rewrite (Py_bind_returned _ _ _ _ _ Hget). reflexivity.
  - split; [exact Hlookup|].
    intros t bare prefixed Hin Hbare _. rewrite Hlookup.
    destruct (decide (t ∈ types)); [|contradiction]. rewrite Hbare. reflexivity.
Qed.

Lemma intersphinx_lookup_priority_witness :
  exists s' targets,
    get_intersphinx_targets "python" "func" ""
      (set_app (Some Sample.py_app) Sample.fresh) = Returned targets s'
    /\ targets !! "function" = Some [("bare", "https://example.org/bare")].
Proof.
  destruct (intersphinx_lookup_priority (set_app (Some Sample.py_app) Sample.fresh)
              Sample.py_app Sample.inventory
              {[ "function" := [("bare", "https://example.org/bare")];
                 "py:function" := [("len", "https://example.org/len")];
                 "std:label" := [("genindex", "https://example.org/genindex")] ]}
              "python" "func" "" eq_refl eq_refl eq_refl)
    as (types & s' & targets & Htypes & Htargets & _ & Hbare).
  exists s', targets. split; [exact Htargets|].
  apply (Hbare "function" _ [("len", "https://example.org/len")]).
  - vm_compute in Htypes. injection Htypes as <- _. set_solver.
  - reflexivity.
  - reflexivity.
Defined.

(** ** Building without a log handler *)

Lemma create_sphinx_app_hidden (P : Platform) (W : World) s options cfg srv cd a :
  sphinx options = Some cfg ->
  server options = Some srv ->
  hide_sphinx_output srv = Some true ->
  find_conf_dir P (glob_conf_py W) (workspace_root_uri s) (OfSphinxConfig cfg) = Ok (Some cd) ->
  new_Sphinx W cd cfg = Ok a ->
  create_sphinx_app P W options s = Returned a (set_sphinx_log (sphinx_log s) false s).
Proof.
  intros Hcfg Hsrv Hhide Hfind Hnew.
  unfold create_sphinx_app. rewrite Hcfg, Hsrv, Hhide.
  unfold mbind, Py_bind, lift, read, update, mret, Py_ret. simpl.
  rewrite Hfind. simpl. rewrite Hnew. simpl. reflexivity.
Qed.

Lemma _initialize_sphinx_created (P : Platform) (W : World) s a s' :
  create_sphinx_app P W (user_config s) s = Returned a s' ->
  _initialize_sphinx P W s = Returned (Some a) s'.
Proof.
  intros H. unfold _initialize_sphinx.
  unfold mbind at 1. unfold Py_bind, read, try_except.
  rewrite (Py_bind_returned _ _ _ _ _ H). reflexivity.
Qed.

Lemma initialize_unfold (P : Platform) (W : World) options s :
  initialize P W (Options options) s =
    match _initialize_sphinx P W (set_user_config options s) with
    | Returned a s' => build P W (set_app a s')
    | Raised e s' => Raised e s'
    end.
Proof. reflexivity. Qed.

(** C10. [build] reads [self.sphinx_log] whenever there is an application,
    and [create_sphinx_app] sets that attribute only when
    [hide_sphinx_output] is not true.  So [build] on a server that has an
    application and no [sphinx_log] raises an [AttributeError]; and
    [initialize] with [hideSphinxOutput] true, on a server without a handler
    from before, in a workspace where the application can be created,
    ends with that [AttributeError] instead of completing the build: nothing
    is stored, notified or published. *)
Theorem build_without_handler_raises (P : Platform) (W : World) :
  (forall s a,
     app s = Some a -> sphinx_log s = None ->
     build P W s
     = Raised (AttributeError "'SphinxLanguageServer' object has no attribute 'sphinx_log'")
              (set_app (Some (set_warncount 0 a)) s))
  /\ (forall s options cfg srv cd a,
        sphinx_log s = None ->
        sphinx options = Some cfg ->
        server options = Some srv ->
        hide_sphinx_output srv = Some true ->
        find_conf_dir P (glob_conf_py W) (workspace_root_uri s) (OfSphinxConfig cfg)
        = Ok (Some cd) ->
        new_Sphinx W cd cfg = Ok a ->
        exists s',
          initialize P W (Options options) s
          = Raised (AttributeError "'SphinxLanguageServer' object has no attribute 'sphinx_log'")
                   s'
          /\ app s' = Some (set_warncount 0 a)
          /\ sphinx_log s' = None
          /\ sent s' = sent s
          /\ _diagnostics s' = _diagnostics s).
Proof.
  assert (Hbuild : forall s a,
     app s = Some a -> sphinx_log s = None ->
     build P W s
     = Raised (AttributeError "'SphinxLanguageServer' object has no attribute 'sphinx_log'")
              (set_app (Some (set_warncount 0 a)) s)).
  { intros s a Happ Hlog. unfold build. rewrite Happ. simpl. rewrite Hlog. reflexivity. }
  split; [exact Hbuild|].
  intros s options cfg srv cd a Hlog Hcfg Hsrv Hhide Hfind Hnew.
  eexists. split.
  - rewrite initialize_unfold.
    rewrite (_initialize_sphinx_created P W (set_user_config options s) a _
               (create_sphinx_app_hidden P W (set_user_config options s) options cfg srv cd a
                  Hcfg Hsrv Hhide Hfind Hnew)).
    apply Hbuild; simpl; [reflexivity|exact Hlog].
  - simpl. repeat split. exact Hlog.
Qed.

Lemma build_without_handler_raises_witness :
  exists s',
    initialize Posix.platform (Sample.world FallbackOnceFilter Sample.py_app Sample.quiet)
      (Options (Sample.options (Some true))) Sample.fresh
    = Raised (AttributeError "'SphinxLanguageServer' object has no attribute 'sphinx_log'") s'
    /\ app s' = Some (set_warncount 0 Sample.py_app)
    /\ sphinx_log s' = None
    /\ sent s' = sent Sample.fresh
    /\ _diagnostics s' = _diagnostics Sample.fresh.
Proof.
  apply (proj2 (build_without_handler_raises Posix.platform
                  (Sample.world FallbackOnceFilter Sample.py_app Sample.quiet))
           Sample.fresh (Sample.options (Some true)) Sample.default_sphinx_config
           {| hide_sphinx_output := Some true |} (AsPath "/ws/docs") Sample.py_app);
    reflexivity.
Defined.

(** ** Saving conf.py without an application *)

Lemma save_unfold (P : Platform) (W : World) uri s :
  save P W uri s =
    ((if PyStr.endswith "conf.py" (to_fs_path P uri) then
        current ← read app;
        conf_dir ← match current with
                   | Some a => mret (AsPath (path_join P [confdir a]))
                   | None =>
                       root_uri ← read workspace_root_uri;
                       options ← read user_config;
                       found ← lift (find_conf_dir P (glob_conf_py W) root_uri
                                       (OfInitializationOptions options));
                       mret (or_empty found)
                   end;
        conf_py ← lift (truediv P conf_dir "conf.py");
        if String.eqb (pathlike_str conf_py) (to_fs_path P uri) then
          a ← _initialize_sphinx P W;
          update (set_app a)
        else mret tt
      else clear_diagnostics "sphinx" uri) ≫= fun _ => build P W) s.
Proof. reflexivity. Qed.

(** Whenever there is no application, saving a file whose path ends in
    [conf.py] raises: [find_conf_dir] is given [self.user_config], which has
    no attribute [conf_dir]. *)
Lemma save_conf_py_without_app (P : Platform) (W : World) uri s :
  app s = None ->
  PyStr.endswith "conf.py" (to_fs_path P uri) = true ->
  save P W uri s
  = Raised (AttributeError "'InitializationOptions' object has no attribute 'conf_dir'") s.
Proof.
  intros Happ Hend. rewrite save_unfold, Hend.
  unfold mbind, Py_bind, read. rewrite Happ. reflexivity.
Qed.

(** C9. The server has been initialized in a workspace without any
    [conf.py], so that it has no application; then [/ws/conf.py] is saved.
    [save] does not complete: it raises.  The exception comes from
    [find_conf_dir], which is handed the whole [user_config] instead of its
    [sphinx] part; and had it returned [None], the value [""] that replaces
    it is a string, for which [conf_dir / "conf.py"] is a [TypeError]. *)
Theorem save_conf_py_without_project_raises :
  let s0 := state_of (Sample.started Sample.empty_world None) in
  app s0 = None
  /\ sent s0 = [ShowMessage
                  "Unable to find your 'conf.py', features that depend on Sphinx will be unavailable"
                  MessageType_Warning]
  /\ save Posix.platform Sample.empty_world "file:///ws/conf.py" s0
     = Raised (AttributeError "'InitializationOptions' object has no attribute 'conf_dir'") s0
  /\ find_conf_dir Posix.platform (glob_conf_py Sample.empty_world) "file:///ws"
       (OfSphinxConfig Sample.default_sphinx_config) = Ok None
  /\ (forall P : Platform,
        truediv P (or_empty None) "conf.py"
        = Raise (TypeError "unsupported operand type(s) for /: 'str' and 'str'")).
Proof.
  intros s0. repeat apply conj.
  - reflexivity.
  - reflexivity.
  - apply save_conf_py_without_app; reflexivity.
  - reflexivity.
  - intros P. reflexivity.
Qed.

(** ** The report-once filter in emit *)

(** C6, as the code has it.  Two records that Sphinx logs as warnings or
    errors, with the same location, are given to the handler one after the
    other.  The handler itself compares neither messages nor locations: it
    asks the filter in [only_once], and each record the filter accepts adds
    its diagnostic to the list of the document, each record it rejects adds
    nothing.  The [OnceFilter] that the module defines, for a Sphinx that has
    none, accepts every record: with it the two records leave two diagnostics,
    also when they have the same message. *)
Theorem duplicate_dropped_only_by_filter (P : Platform) (h : SphinxLogHandler)
    (r1 r2 : LogRecord) (loc doc : string) (lineno : option Z) :
  extracted r1 = true ->
  extracted r2 = true ->
  rec_location (translator h r1) = Some loc ->
  rec_location (translator h r2) = Some loc ->
  get_location P loc = Ok (doc, lineno) ->
  let d1 := make_diagnostic (or_1 lineno) (translator h r1) in
  let d2 := make_diagnostic (or_1 lineno) (translator h r2) in
  let accepted1 := (OnceFilter_filter (only_once h) r1).1 in
  let accepted2 := (OnceFilter_filter (OnceFilter_filter (only_once h) r1).2 r2).1 in
  (exists h2,
     emit_all P [r1; r2] h = (h2, None)
     /\ get_list (diagnostics h2) doc
        = get_list (diagnostics h) doc
          ++ (if accepted1 then [d1] else []) ++ (if accepted2 then [d2] else [])
     /\ forall other, other <> doc -> diagnostics h2 !! other = diagnostics h !! other)
  /\ (of_class (only_once h) = FallbackOnceFilter ->
      exists h2,
        emit_all P [r1; r2] h = (h2, None)
        /\ diagnostics h2 = <[doc := get_list (diagnostics h) doc ++ [d1; d2]]> (diagnostics h)
        /\ length (get_list (diagnostics h2) doc)
           = (length (get_list (diagnostics h) doc) + 2)%nat).
Proof.
  intros Hex1 Hex2 Hloc1 Hloc2 Hget d1 d2 accepted1 accepted2.
  subst d1 d2 accepted1 accepted2.
  split.
  - destruct (OnceFilter_filter (only_once h) r1) as [a1 f1] eqn:Hf1.
    assert (Hf1' : (OnceFilter_filter (only_once h) r1).1 = a1) by (rewrite Hf1; reflexivity).
    assert (Hf1'' : (OnceFilter_filter (only_once h) r1).2 = f1) by (rewrite Hf1; reflexivity).
    cbn [fst snd emit_all].
    destruct a1.
    + (* the first record is accepted *)
      rewrite (emit_accepted P r1 h loc doc lineno Hex1 Hf1' Hloc1 Hget), Hf1''.
      cbv beta iota.
      match goal with |- context [emit P r2 ?x] => set (h1 := x) end.
      destruct (OnceFilter_filter f1 r2) as [a2 f2] eqn:Hf2.
      assert (Hf2' : (OnceFilter_filter (only_once h1) r2).1 = a2)
        by (simpl; rewrite Hf2; reflexivity).
      destruct a2.
      * rewrite (emit_accepted P r2 h1 loc doc lineno Hex2 Hf2' Hloc2 Hget).
        eexists. split; [reflexivity|]. split.
        -- simpl. unfold get_list at 1. rewrite lookup_insert_eq. simpl.
           unfold get_list at 1. rewrite lookup_insert_eq. simpl.
           rewrite <- ?app_assoc. reflexivity.
        -- intros other Hother. simpl. rewrite !lookup_insert_ne by congruence. reflexivity.
      * rewrite (emit_rejected P r2 h1 Hex2 Hf2').
        eexists. split; [reflexivity|]. split.
        -- simpl. unfold get_list at 1. rewrite lookup_insert_eq. simpl.
           rewrite ?app_nil_r. reflexivity.
        -- intros other Hother. simpl. rewrite lookup_insert_ne by congruence. reflexivity.
    + (* the first record is rejected *)
      rewrite (emit_rejected P r1 h Hex1 Hf1'), Hf1''.
      cbv beta iota.
      destruct (OnceFilter_filter f1 r2) as [a2 f2] eqn:Hf2.
      assert (Hf2' : (OnceFilter_filter (only_once (set_only_once f1 h)) r2).1 = a2)
        by (simpl; rewrite Hf2; reflexivity).
      destruct a2.
      * rewrite (emit_accepted P r2 (set_only_once f1 h) loc doc lineno Hex2 Hf2'
                   Hloc2 Hget).
        eexists. split; [reflexivity|]. split.
        -- simpl. unfold get_list at 1. rewrite lookup_insert_eq. reflexivity.
        -- intros other Hother. simpl. rewrite lookup_insert_ne by congruence. reflexivity.
      * rewrite (emit_rejected P r2 (set_only_once f1 h) Hex2 Hf2').
        eexists. split; [reflexivity|]. split.
        -- simpl. rewrite ?app_nil_r. reflexivity.
        -- intros other Hother. reflexivity.
  - intros Hclass.
    assert (Hall : forall r, OnceFilter_filter (only_once h) r = (true, only_once h)).
    { intros r. unfold OnceFilter_filter. rewrite Hclass. reflexivity. }
    eexists. split; [|split].
    + simpl.
      rewrite (emit_accepted P r1 h loc doc lineno Hex1 ltac:(rewrite Hall; reflexivity)
                 Hloc1 Hget).
      rewrite Hall. simpl.
      erewrite (emit_accepted P r2 _ loc doc lineno Hex2); simpl;
        [reflexivity | rewrite Hall; reflexivity | exact Hloc2 | exact Hget].
    + simpl. rewrite insert_insert_eq. unfold get_list at 1.
      rewrite lookup_insert_eq. simpl. rewrite <- ?app_assoc. reflexivity.
    + simpl. unfold get_list at 1. rewrite lookup_insert_eq. simpl.
      unfold get_list at 1. rewrite lookup_insert_eq. simpl.
      rewrite !length_app. simpl. lia.
Qed.

Lemma duplicate_dropped_only_by_filter_witness :
  let r := Sample.warning_at "/doc/index.rst:42" "duplicate label" in
  let d := make_diagnostic 42 r in
  exists h2,
    emit_all Posix.platform [r; r] (Sample.handler FallbackOnceFilter) = (h2, None)
    /\ diagnostics h2 = {[ "file:///doc/index.rst" := [d; d] ]}
    /\ length (get_list (diagnostics h2) "file:///doc/index.rst") = 2%nat.
Proof.
  intros r d.
  apply (proj2 (duplicate_dropped_only_by_filter Posix.platform
                  (Sample.handler FallbackOnceFilter) r r "/doc/index.rst:42"
                  "file:///doc/index.rst" (Some 42)
                  eq_refl eq_refl eq_refl eq_refl eq_refl)).
  reflexivity.
Defined.

(** With the [OnceFilter] of the module, the same warning given twice to
    the handler leaves two diagnostics for the document, not one. *)
Lemma duplicate_record_reported_twice :
  let r := Sample.warning_at "/doc/index.rst:42" "duplicate label" in
  let h2 := (emit_all Posix.platform [r; r] (Sample.handler FallbackOnceFilter)).1 in
  diagnostics h2 !! "file:///doc/index.rst" = Some [make_diagnostic 42 r; make_diagnostic 42 r]
  /\ length (get_list (diagnostics h2) "file:///doc/index.rst") = 2%nat
  /\ ~ (exists d, diagnostics h2 !! "file:///doc/index.rst" = Some [d]).
Proof.
  intros r h2.
  assert (H : diagnostics h2 !! "file:///doc/index.rst"
              = Some [make_diagnostic 42 r; make_diagnostic 42 r]) by reflexivity.
  repeat apply conj.
  - exact H.
  - unfold get_list. rewrite H. reflexivity.
  - intros [d Hd]. rewrite H in Hd. discriminate.
Qed.

(** ** build *)

Lemma set__diagnostics_same s : set__diagnostics (_diagnostics s) s = s.
Proof. destruct s; reflexivity. Qed.

(** The loop that stores the groups changes the store only, and there only
    the groups of the documents the handler collected. *)
Lemma store_groups_spec (groups : gmap string (list Diagnostic)) (s : Server) :
  exists store,
    store_groups groups s = set__diagnostics store s
    /\ forall src doc,
         store !! (src, doc) =
           if decide (src = "sphinx") then
             match groups !! doc with
             | Some ds => Some ds
             | None => _diagnostics s !! (src, doc)
             end
           else _diagnostics s !! (src, doc).
Proof.
  unfold store_groups.
  apply (map_fold_weak_ind
           (fun r (m : gmap string (list Diagnostic)) =>
              exists store,
                r = set__diagnostics store s
                /\ forall src doc,
                     store !! (src, doc) =
                       if decide (src = "sphinx") then
                         match m !! doc with
                         | Some ds => Some ds
                         | None => _diagnostics s !! (src, doc)
                         end
                       else _diagnostics s !! (src, doc))).
  - exists (_diagnostics s). split; [symmetry; apply set__diagnostics_same|].
    intros src doc. rewrite lookup_empty. destruct (decide (src = "sphinx")); reflexivity.
  - intros i x m r Hfresh (store & -> & Hstore).
    exists (<[("sphinx", i) := x]> store). split; [reflexivity|].
    intros src doc.
    destruct (decide ((("sphinx", i) : string * string) = (src, doc))) as [Heq|Hne].
    + injection Heq as <- <-. rewrite !lookup_insert_eq.
      destruct (decide ("sphinx" = "sphinx")); [reflexivity|contradiction].
    + rewrite lookup_insert_ne by exact Hne. rewrite Hstore.
      destruct (decide (src = "sphinx")) as [->|]; [|reflexivity].
      rewrite lookup_insert_ne by congruence. reflexivity.
Qed.

(** [build] on a server that has an application and a handler: it returns,
    and the server is the one [after_build] describes, for a store that has
    the collected groups under ["sphinx"] and is otherwise the store from
    before. *)
Lemma build_returns (P : Platform) (W : World) s a h a' h' exc :
  app s = Some a ->
  sphinx_log s = Some h ->
  build_attempt P W s a h = (a', h', exc) ->
  exists store,
    build P W s = Returned tt (after_build s a' h' exc store)
    /\ forall src doc,
         store !! (src, doc) =
           if decide (src = "sphinx") then
             match diagnostics h' !! doc with
             | Some ds => Some ds
             | None => _diagnostics s !! (src, doc)
             end
           else _diagnostics s !! (src, doc).
Proof.
  intros Happ Hlog Hattempt. unfold build_attempt in Hattempt.
  unfold build. rewrite Happ. simpl. rewrite Hlog, Hattempt.
  destruct exc as [e|].
  - destruct (store_groups_spec (diagnostics h')
                (send [ShowMessage
                         "Unable to build documentation, see output window for details."
                         MessageType_Error]
                   (send [LoggedError e]
                      (set_sphinx_log (Some h') (sphinx_log_attached s)
                         (set_app (Some a') (set_app (Some (set_warncount 0 a)) s))))))
      as (store & Hstore & Hlookup).
    exists store. split; [|exact Hlookup].
    unfold mbind, Py_bind, logger_error, show_message, send_notification,
      sync_diagnostics, update, mret, Py_ret.
    simpl. rewrite Hstore. reflexivity.
  - destruct (store_groups_spec (diagnostics h')
                (set_sphinx_log (Some h') (sphinx_log_attached s)
                   (set_app (Some a') (set_app (Some (set_warncount 0 a)) s))))
      as (store & Hstore & Hlookup).
    exists store. split; [|exact Hlookup].
    unfold mbind, Py_bind, logger_error, show_message, send_notification,
      sync_diagnostics, update, mret, Py_ret.
    simpl. rewrite Hstore. reflexivity.
Qed.

(** ** What the client is shown *)


Lemma published_for_contains (store : gmap (string * string) (list Diagnostic))
    (src doc : string) (ds : list Diagnostic) (d : Diagnostic) :
  store !! (src, doc) = Some ds -> d ∈ ds -> d ∈ published_for store doc.
Proof.
  intros Hlookup Hd. unfold published_for.
  apply list_elem_of_In, in_concat. exists ds. split.
  - apply in_map_iff. exists ((src, doc), ds). split; [reflexivity|].
    apply list_elem_of_In, elem_of_map_to_list, map_lookup_filter_Some.
    split; [exact Hlookup|reflexivity].
  - apply list_elem_of_In. exact Hd.
Qed.

Lemma after_build_publishes (s : Server) (a' : Sphinx) (h' : SphinxLogHandler)
    (exc : option exn) (store : gmap (string * string) (list Diagnostic))
    (src doc : string) :
  is_Some (store !! (src, doc)) ->
  PublishDiagnostics doc (published_for store doc) ∈ sent (after_build s a' h' exc store).
Proof.
  intros Hsome. unfold after_build. simpl.
  apply elem_of_app. right.
  apply list_elem_of_In, in_map_iff. exists doc. split; [reflexivity|].
  apply list_elem_of_In, elem_of_elements, elem_of_map.
  exists (src, doc). split; [reflexivity|]. apply elem_of_dom. exact Hsome.
Qed.

(** C4, as the code has it.  When [app.build()] raises, the exception is
    logged and an error message is shown to the user; the loop that follows
    the [try] statement then runs as after any build: every group the
    handler collected during the failed attempt is stored, and published to
    the client.  The application stays in place for the next build or
    save. *)
Theorem failed_build_stores_collected_diagnostics (P : Platform) (W : World)
    (s : Server) (a a' : Sphinx) (h h' : SphinxLogHandler) (e : exn) :
  app s = Some a ->
  sphinx_log s = Some h ->
  build_attempt P W s a h = (a', h', Some e) ->
  exists s',
    build P W s = Returned tt s'
    /\ (forall doc ds,
          diagnostics h' !! doc = Some ds ->
          _diagnostics s' !! ("sphinx", doc) = Some ds
          /\ PublishDiagnostics doc (published_for (_diagnostics s') doc) ∈ sent s'
          /\ forall d, d ∈ ds -> d ∈ published_for (_diagnostics s') doc)
    /\ ShowMessage "Unable to build documentation, see output window for details."
         MessageType_Error ∈ sent s'
    /\ LoggedError e ∈ sent s'
    /\ app s' = Some a'
    /\ sphinx_log s' = Some h'.
Proof.
  intros Happ Hlog Hattempt.
  destruct (build_returns P W s a h a' h' (Some e) Happ Hlog Hattempt)
    as (store & Hbuild & Hstore).
  exists (after_build s a' h' (Some e) store).
  split; [exact Hbuild|]. repeat apply conj.
  - intros doc ds Hds.
    assert (Hlookup : store !! ("sphinx", doc) = Some ds).
    { rewrite Hstore. destruct (decide ("sphinx" = "sphinx")); [|contradiction].
      rewrite Hds. reflexivity. }
    repeat apply conj.
    + exact Hlookup.
    + apply (after_build_publishes s a' h' (Some e) store "sphinx" doc).
      rewrite Hlookup. eauto.
    + intros d Hd. apply (published_for_contains _ "sphinx" doc ds d Hlookup Hd).
  - unfold after_build. simpl. set_solver.
  - unfold after_build. simpl. set_solver.
  - reflexivity.
  - reflexivity.
Qed.

Lemma failed_build_stores_collected_diagnostics_witness :
  let s0 := state_of (Sample.started Sample.quiet_world None) in
  exists s',
    build Posix.platform Sample.failing_world s0 = Returned tt s'
    /\ _diagnostics s' !! ("sphinx", "file:///ws/docs/a.rst") = Some [Sample.label_diagnostic]
    /\ ShowMessage "Unable to build documentation, see output window for details."
         MessageType_Error ∈ sent s'
    /\ is_Some (app s').
Proof.
  intros s0.
  edestruct (failed_build_stores_collected_diagnostics Posix.platform Sample.failing_world s0)
    as (s' & Hbuild & Hcopy & Hmsg & _ & Happ & _);
    [reflexivity | reflexivity | reflexivity |].
  exists s'. repeat apply conj.
  - exact Hbuild.
  - apply (Hcopy "file:///ws/docs/a.rst" [Sample.label_diagnostic]). reflexivity.
  - exact Hmsg.
  - rewrite Happ. eauto.
Defined.

(** The build logs a warning for [a.rst] and then raises.  The warning is
    not discarded: it is stored for the document and published with the
    error message. *)
Lemma failed_build_diagnostics_not_discarded :
  let s0 := state_of (Sample.started Sample.quiet_world None) in
  let s1 := state_of (build Posix.platform Sample.failing_world s0) in
  _diagnostics s0 = ∅
  /\ _diagnostics s1 !! ("sphinx", "file:///ws/docs/a.rst") = Some [Sample.label_diagnostic]
  /\ published_for (_diagnostics s1) "file:///ws/docs/a.rst" = [Sample.label_diagnostic]
  /\ sent s1
     = sent s0
       ++ [ LoggedError (EngineError "boom");
            ShowMessage "Unable to build documentation, see output window for details."
              MessageType_Error;
            SendNotification "esbonio/buildComplete";
            PublishDiagnostics "file:///ws/docs/a.rst" [Sample.label_diagnostic] ]
  /\ ~ (published_for (_diagnostics s1) "file:///ws/docs/a.rst" = []).
Proof.
  intros s0 s1.
  assert (Hpub : published_for (_diagnostics s1) "file:///ws/docs/a.rst"
                 = [Sample.label_diagnostic]) by (vm_compute; reflexivity).
  repeat apply conj.
  - vm_compute. reflexivity.
  - vm_compute. reflexivity.
  - exact Hpub.
  - vm_compute. reflexivity.
  - rewrite Hpub. discriminate.
Qed.

(** ** Diagnostics from one build to the next *)

Lemma save_other_document (P : Platform) (W : World) (uri : string) (s : Server) :
  PyStr.endswith "conf.py" (to_fs_path P uri) = false ->
  save P W uri s = build P W (state_of (clear_diagnostics "sphinx" uri s)).
Proof. intros Hend. rewrite save_unfold, Hend. reflexivity. Qed.




(** ** The caches of the indices across a save *)

Lemma keeps_ret {A : Type} (a : A) : keeps_caches (mret a : Py A).
Proof. intros s. reflexivity. Qed.

Lemma keeps_bind {A B : Type} (m : Py A) (k : A -> Py B) :
  keeps_caches m -> (forall a, keeps_caches (k a)) -> keeps_caches (m ≫= k).
Proof.
  intros Hm Hk s. unfold mbind, Py_bind.
  specialize (Hm s). destruct (m s) as [a s'|e s']; simpl in Hm.
  - rewrite (Hk a s'). exact Hm.
  - exact Hm.
Qed.

Lemma keeps_update (f : Server -> Server) :
  (forall s, caches (f s) = caches s) -> keeps_caches (update f).
Proof. intros Hf s. apply Hf. Qed.

Lemma keeps_read {A : Type} (f : Server -> A) : keeps_caches (read f).
Proof. intros s. reflexivity. Qed.

Lemma keeps_raise {A : Type} (e : exn) : keeps_caches (raise e : Py A).
Proof. intros s. reflexivity. Qed.

Lemma keeps_lift {A : Type} (r : result A) : keeps_caches (lift r).
Proof. destruct r; intros s; reflexivity. Qed.

Lemma keeps_try_except {A : Type} (body : Py A) (handler : exn -> Py A) :
  keeps_caches body -> (forall e, keeps_caches (handler e)) ->
  keeps_caches (try_except body handler).
Proof.
  intros Hb Hh s. unfold try_except.
  specialize (Hb s). destruct (body s) as [a s'|e s']; simpl in Hb.
  - exact Hb.
  - rewrite (Hh e s'). exact Hb.
Qed.

(** One step of a proof that a method keeps the caches: the leaves are
    closed, a bind is split into its two parts. *)
Ltac keeps_leaf :=
  first
    [ apply keeps_update; intros ?; reflexivity
    | apply keeps_ret | apply keeps_read | apply keeps_raise | apply keeps_lift ].

Tactic Notation "keeps_bind_as" ident(x) :=
  apply keeps_bind; [try keeps_leaf | intros x; try keeps_leaf].

Lemma keeps_create_sphinx_app (P : Platform) (W : World) options :
  keeps_caches (create_sphinx_app P W options).
Proof.
  unfold create_sphinx_app.
  keeps_bind_as cfg. keeps_bind_as root_uri. keeps_bind_as found.
  destruct found as [conf_dir|]; [|keeps_leaf].
  keeps_bind_as a. keeps_bind_as u. keeps_bind_as hide. keeps_bind_as u'.
  destruct (bool_decide (hide = Some true)); keeps_leaf.
Qed.

Lemma keeps__initialize_sphinx (P : Platform) (W : World) :
  keeps_caches (_initialize_sphinx P W).
Proof.
  unfold _initialize_sphinx, show_message, logger_error.
  keeps_bind_as options.
  apply keeps_try_except.
  - keeps_bind_as a. apply keeps_create_sphinx_app.
  - intros e.
    destruct e; repeat (apply keeps_bind; [try keeps_leaf|intros ?]); try keeps_leaf.
Qed.

Lemma keeps_build (P : Platform) (W : World) : keeps_caches (build P W).
Proof.
  intros s.
  destruct (app s) as [a|] eqn:Happ.
  - destruct (sphinx_log s) as [h|] eqn:Hlog.
    + destruct (build_attempt P W s a h) as [[a' h'] exc] eqn:Hattempt.
      destruct (build_returns P W s a h a' h' exc Happ Hlog Hattempt)
        as (store & -> & _).
      unfold after_build. destruct exc; reflexivity.
    + unfold build. rewrite Happ. simpl. rewrite Hlog. reflexivity.
  - unfold build. rewrite Happ. reflexivity.
Qed.

Lemma keeps_save (P : Platform) (W : World) uri : keeps_caches (save P W uri).
Proof.
  intros s. rewrite save_unfold. revert s.
  apply keeps_bind; [|intros _; apply keeps_build].
  destruct (PyStr.endswith "conf.py" (to_fs_path P uri)).
  - keeps_bind_as current. keeps_bind_as conf_dir.
    + destruct current as [a|]; [keeps_leaf|].
      repeat (apply keeps_bind; [|intros ?]); keeps_leaf.
    + keeps_bind_as conf_py.
      destruct (String.eqb (pathlike_str conf_py) (to_fs_path P uri)); [|keeps_leaf].
      keeps_bind_as a. apply keeps__initialize_sphinx.
  - unfold clear_diagnostics. keeps_leaf.
Qed.

Lemma get_role_targets_unfold (name domain : string) (s : Server) :
  get_role_targets name domain s =
    let s1 := match _role_targets s with
              | None => set_role_targets (Some (index_role_targets (get_domains s))) s
              | Some _ => s
              end in
    match get_role_target_types name domain s1 with
    | Returned types s2 =>
        Returned (concat (map (get_list (default ∅ (_role_targets s2))) types)) s2
    | Raised e s2 => Raised e s2
    end.
Proof.
  unfold get_role_targets. unfold mbind at 1. unfold Py_bind.
  destruct (_role_targets s); simpl;
    unfold mbind, Py_bind, read, mret, Py_ret;
    destruct (get_role_target_types name domain _); reflexivity.
Qed.

(** C1, as the code has it.  Nothing in [save] resets a cache: whatever
    [save] does, replacing the application included, the four caches are
    afterwards what they were before.  A cache that was filled before the
    save is therefore what the next call returns, whichever application is
    active by then; only a cache that was still empty is filled from the
    domains of the application that is active when the call is made.
    [get_role_targets] reads two caches, each of which is filled or not on
    its own: the table of target types in force is the cached one or else
    the one of the active application, and so is the table of targets, so
    that the call can look up target types of the earlier application among
    the objects of the active one. *)
Theorem caches_survive_replacement (P : Platform) (W : World) (uri : string) (s : Server) :
  let s' := state_of (save P W uri s) in
  caches s' = caches s
  /\ (forall table, _roles s = Some table -> get_roles s' = Returned table s')
  /\ (_roles s = None ->
      get_roles s'
      = Returned (merge_entries roles (get_domains s') (rst_roles s))
                 (set_roles (Some (merge_entries roles (get_domains s') (rst_roles s))) s'))
  /\ (forall table, _directives s = Some table -> get_directives s' = Returned table s')
  /\ (_directives s = None ->
      get_directives s'
      = Returned (merge_entries directives (get_domains s') (rst_directives s))
                 (set_directives
                    (Some (merge_entries directives (get_domains s') (rst_directives s))) s'))
  /\ (forall table name domain,
        _role_target_types s = Some table ->
        get_role_target_types name domain s'
        = Returned (get_list table (role_key name domain)) s')
  /\ (forall name domain,
        _role_target_types s = None ->
        get_role_target_types name domain s'
        = Returned (get_list (index_role_target_types (get_domains s')) (role_key name domain))
                   (set_role_target_types (Some (index_role_target_types (get_domains s'))) s'))
  /\ (forall types targets name domain,
        _role_target_types s = Some types ->
        _role_targets s = Some targets ->
        get_role_targets name domain s'
        = Returned (concat (map (get_list targets) (get_list types (role_key name domain))))
                   s')
  /\ (forall name domain,
        let types := default (index_role_target_types (get_domains s'))
                             (_role_target_types s) in
        let targets := default (index_role_targets (get_domains s')) (_role_targets s) in
        exists s'',
          get_role_targets name domain s'
          = Returned (concat (map (get_list targets) (get_list types (role_key name domain))))
                     s''
          /\ _role_target_types s'' = Some types
          /\ _role_targets s'' = Some targets
          /\ app s'' = app s').
Proof.
  intros s'.
  assert (Hkeep : caches s' = caches s) by apply keeps_save.
  pose proof Hkeep as Hfields. unfold caches in Hfields.
  injection Hfields as Hroles Hdirectives Htypes Htargets Hrst_roles Hrst_directives.
  repeat apply conj.
  - exact Hkeep.
  - intros table Hsome. unfold get_roles. rewrite Hroles, Hsome. reflexivity.
  - intros Hnone. unfold get_roles. rewrite Hroles, Hnone, Hrst_roles. reflexivity.
  - intros table Hsome. unfold get_directives. rewrite Hdirectives, Hsome. reflexivity.
  - intros Hnone. unfold get_directives.
    rewrite Hdirectives, Hnone, Hrst_directives. reflexivity.
  - intros table name domain Hsome. unfold get_role_target_types.
    rewrite Htypes, Hsome. reflexivity.
  - intros name domain Hnone. unfold get_role_target_types.
    rewrite Htypes, Hnone. reflexivity.
  - intros types targets name domain Htypes_some Htargets_some.
    unfold get_role_targets, mbind, Py_bind, read, mret, Py_ret, get_role_target_types.
    rewrite Htargets, Htargets_some, Htypes, Htypes_some. simpl.
    rewrite Htargets, Htargets_some. reflexivity.
  - intros name domain types targets. subst types targets.
    rewrite get_role_targets_unfold. unfold get_role_target_types.
    fold (role_key name domain). rewrite Htargets.
    destruct (_role_targets s) as [targets|]; simpl; rewrite Htypes;
      destruct (_role_target_types s) as [types|]; simpl;
      rewrite ?Htargets; simpl;
      (eexists; split; [reflexivity|]; repeat split; simpl; assumption || reflexivity).
Qed.

Lemma caches_survive_replacement_witness :
  let s0 := state_of (Sample.started Sample.quiet_world None) in
  let s1 := state_of (get_roles s0) in
  let s2 := state_of (save Posix.platform Sample.edited_world "file:///ws/docs/conf.py" s1) in
  app s1 = Some Sample.py_app
  /\ app s2 = Some Sample.c_app
  /\ get_roles s2 = Returned (merge_entries roles (domains_of Sample.py_app) ∅) s2.
Proof.
  intros s0 s1 s2. repeat apply conj.
  - vm_compute. reflexivity.
  - vm_compute. reflexivity.
  - apply (proj1 (proj2 (caches_survive_replacement Posix.platform Sample.edited_world
                           "file:///ws/docs/conf.py" s1))).
    vm_compute. reflexivity.
Defined.

(** The two caches of [get_role_targets] filled from two applications.  The
    project is a [py] one and the target types of [func] are asked for; then
    [conf.py] is saved and the project is a [js] one, which has no role
    [func].  [get_role_targets("func")] now returns [Widget]: the cached
    target type [function] of the [py] project, looked up among the objects
    of the [js] project.  The [py] project alone gives [pkg.run], the [js]
    project alone gives nothing. *)
Example mixed_role_targets_after_replacement :
  let s0 := state_of (Sample.started Sample.quiet_world None) in
  let s1 := state_of (get_role_target_types "func" "" s0) in
  let s2 := state_of (save Posix.platform Sample.js_world "file:///ws/docs/conf.py" s1) in
  app s2 = Some Sample.js_app
  /\ (exists s3, get_role_targets "func" "" s2 = Returned [Sample.widget] s3)
  /\ (exists s3, get_role_targets "func" "" (set_app (Some Sample.js_app) Sample.fresh)
                 = Returned [] s3)
  /\ (exists s3, get_role_targets "func" "" s0 = Returned (get_objects Sample.py_domain) s3).
Proof.
  intros s0 s1 s2. repeat apply conj.
  - vm_compute. reflexivity.
  - eexists. vm_compute. reflexivity.
  - eexists. vm_compute. reflexivity.
  - eexists. vm_compute. reflexivity.
Qed.

(** The project has the domains [std] and [py]; the roles are asked for, so
    the cache is filled.  Then [conf.py] is saved and the application is
    created anew, now with the domains [std] and [c].  The next
    [get_roles()] still returns the roles of [py], which the active
    application does not have, and none of the roles of [c]. *)
Lemma stale_roles_after_replacement :
  let s0 := state_of (Sample.started Sample.quiet_world None) in
  let s1 := state_of (get_roles s0) in
  let s2 := state_of (save Posix.platform Sample.edited_world "file:///ws/docs/conf.py" s1) in
  let current := merge_entries roles (get_domains s2) (rst_roles s2) in
  app s2 = Some Sample.c_app
  /\ exists table,
       get_roles s2 = Returned table s2
       /\ table !! "class" = Some "py-class-role"
       /\ current !! "class" = None
       /\ table !! "c:macro" = None
       /\ current !! "c:macro" = Some "c-macro-role"
       /\ table <> current.
Proof.
  intros s0 s1 s2 current.
  split; [vm_compute; reflexivity|].
  exists (merge_entries roles (domains_of Sample.py_app) ∅).
  assert (Hstale : merge_entries roles (domains_of Sample.py_app) ∅ !! "class"
                   = Some "py-class-role") by (vm_compute; reflexivity).
  assert (Hcurrent : current !! "class" = None) by (vm_compute; reflexivity).
  repeat apply conj.
  - vm_compute. reflexivity.
  - exact Hstale.
  - exact Hcurrent.
  - vm_compute. reflexivity.
  - vm_compute. reflexivity.
  - intros Heq.
    assert (Hboth : current !! "class" = Some "py-class-role")
      by (rewrite <- Heq; exact Hstale).
    pose proof (eq_trans (eq_sym Hboth) Hcurrent) as Hbad. discriminate Hbad.
Qed.

(** * Further properties of the log handler *)




Lemma emit_not_extracted (P : Platform) (record : LogRecord) (h : SphinxLogHandler) :
  extracted record = false -> emit P record h = (LspHandler_emit record h, None).
Proof.
  unfold extracted, emit. intros Hex. simpl.
  destruct (PyStr.contains "sphinx" (rec_name record)); simpl in *; [|reflexivity].
  rewrite Hex. reflexivity.
Qed.

(** Records that are not warnings or errors of Sphinx go through the
    handler without a trace in its mapping: whatever their number, the
    mapping and the filter are as before, no exception is raised, and every
    record has been handed to the ordinary log, in order. *)
Theorem emit_all_passes_other_records (P : Platform) (records : list LogRecord)
    (h : SphinxLogHandler) :
  Forall (fun r => extracted r = false) records ->
  emit_all P records h
  = ({| translator := translator h; only_once := only_once h;
        diagnostics := diagnostics h; forwarded := forwarded h ++ records |}, None).
Proof.
  revert h. induction records as [|r rest IH]; intros h Hall; simpl.
  - rewrite app_nil_r. destruct h; reflexivity.
  - inversion Hall as [|? ? Hr Hrest]; subst.
    rewrite (emit_not_extracted P r h Hr), (IH _ Hrest). simpl.
    rewrite <- app_assoc. reflexivity.
Qed.

Lemma emit_all_passes_other_records_witness :
  let info := {| rec_name := "sphinx.builders"; rec_levelno := INFO;
                 rec_msg := "building [html]"; rec_location := None |} in
  let other := {| rec_name := "esbonio.lsp"; rec_levelno := ERROR;
                  rec_msg := "oops"; rec_location := None |} in
  diagnostics (emit_all Posix.platform [info; other] (Sample.handler FallbackOnceFilter)).1 = ∅
  /\ (emit_all Posix.platform [info; other] (Sample.handler FallbackOnceFilter)).2 = None.
Proof.
  intros info other.
  rewrite (emit_all_passes_other_records Posix.platform [info; other]
             (Sample.handler FallbackOnceFilter)).
  - split; reflexivity.
  - repeat constructor.
Defined.

Lemma emit_extends (P : Platform) (record : LogRecord) (h : SphinxLogHandler)
    (doc : string) (ds : list Diagnostic) :
  diagnostics h !! doc = Some ds ->
  exists extra,
    diagnostics (emit P record h).1 !! doc = Some (ds ++ extra)
    /\ (length extra <= 1)%nat.
Proof.
  intros Hds.
  assert (Hsame : forall h', diagnostics h' = diagnostics h ->
                    exists extra, diagnostics h' !! doc = Some (ds ++ extra)
                                  /\ (length extra <= 1)%nat).
  { intros h' ->. exists []. rewrite app_nil_r. split; [exact Hds|simpl; lia]. }
  unfold emit. simpl.
  destruct (negb (PyStr.contains "sphinx" (rec_name record)) || _) eqn:Hcond.
  - apply Hsame. reflexivity.
  - destruct (OnceFilter_filter (only_once h) record) as [accepted f].
    destruct accepted; simpl; [|apply Hsame; reflexivity].
    destruct (rec_location (translator h record)) as [location|];
      [|apply Hsame; reflexivity].
    destruct (get_location P location) as [[doc' lineno]|e]; [|apply Hsame; reflexivity].
    destruct (decide (doc' = doc)) as [->|Hne].
    + rewrite Hds. simpl. rewrite lookup_insert_eq. eexists. split; [reflexivity|].
      simpl. lia.
    + destruct (diagnostics h !! doc'); simpl; rewrite lookup_insert_ne by exact Hne;
        exists []; rewrite app_nil_r; (split; [exact Hds|simpl; lia]).
Qed.

(** Within the life of a handler's mapping nothing is overwritten or
    removed: whatever records are emitted, and whether or not one of them
    ends in an exception, the group a document had is a prefix of the group
    it has afterwards, and at most one diagnostic per record was added. *)
Theorem emit_all_extends (P : Platform) (records : list LogRecord) (h : SphinxLogHandler)
    (doc : string) (ds : list Diagnostic) :
  diagnostics h !! doc = Some ds ->
  exists extra,
    diagnostics (emit_all P records h).1 !! doc = Some (ds ++ extra)
    /\ (length extra <= length records)%nat.
Proof.
  revert h ds. induction records as [|r rest IH]; intros h ds Hds; simpl.
  - exists []. rewrite app_nil_r. split; [exact Hds|simpl; lia].
  - destruct (emit_extends P r h doc ds Hds) as (extra1 & H1 & Hlen1).
    destruct (emit P r h) as [h1 [e|]]; simpl in *.
    + exists extra1. split; [exact H1|lia].
    + destruct (IH h1 _ H1) as (extra2 & H2 & Hlen2).
      exists (extra1 ++ extra2). rewrite app_assoc. split; [exact H2|].
      rewrite length_app. lia.
Qed.

Lemma emit_all_extends_witness :
  let h1 := (emit Posix.platform Sample.label_warning
               (Sample.handler FallbackOnceFilter)).1 in
  exists extra,
    diagnostics (emit_all Posix.platform
                   [Sample.warning_at "/ws/docs/b.rst:1" "x";
                    Sample.warning_at "/ws/docs/a.rst:9" "y"] h1).1
      !! "file:///ws/docs/a.rst"
    = Some ([Sample.label_diagnostic] ++ extra)
    /\ (length extra <= 2)%nat.
Proof.
  intros h1.
  apply (emit_all_extends Posix.platform
           [Sample.warning_at "/ws/docs/b.rst:1" "x"; Sample.warning_at "/ws/docs/a.rst:9" "y"]
           h1 "file:///ws/docs/a.rst" [Sample.label_diagnostic]).
  reflexivity.
Defined.

Lemma or_1_not_zero lineno : or_1 lineno <> 0.
Proof. destruct lineno as [[| |]|]; simpl; discriminate. Qed.

Lemma make_diagnostic_one_line lineno record :
  one_line (make_diagnostic (or_1 lineno) record).
Proof.
  unfold one_line, make_diagnostic. simpl.
  repeat split; [lia|apply or_1_not_zero].
Qed.

Lemma emit_one_line (P : Platform) (record : LogRecord) (h : SphinxLogHandler) :
  (forall doc ds, diagnostics h !! doc = Some ds -> Forall one_line ds) ->
  forall doc ds, diagnostics (emit P record h).1 !! doc = Some ds -> Forall one_line ds.
Proof.
  intros Hinv. unfold emit. simpl.
  destruct (negb (PyStr.contains "sphinx" (rec_name record)) || _) eqn:Hcond;
    [exact Hinv|].
  destruct (OnceFilter_filter (only_once h) record) as [accepted f].
  destruct accepted; simpl; [|exact Hinv].
  destruct (rec_location (translator h record)) as [location|]; [|exact Hinv].
  destruct (get_location P location) as [[doc' lineno]|e]; [|exact Hinv].
  intros doc ds.
  destruct (decide (doc' = doc)) as [->|Hne].
  - destruct (diagnostics h !! doc) as [old|] eqn:Hold; simpl;
      rewrite lookup_insert_eq; intros H; injection H as <-.
    + apply Forall_app. split; [apply (Hinv doc old Hold)|].
      constructor; [apply make_diagnostic_one_line|constructor].
    + constructor; [apply make_diagnostic_one_line|constructor].
  - destruct (diagnostics h !! doc'); simpl; rewrite lookup_insert_ne by exact Hne;
      apply Hinv.
Qed.

(** Every diagnostic the handler records covers exactly one line, from
    column 0 of a line to column 0 of the next, and never ends on line 0: a
    location whose line number is 0 is reported like one without a line
    number, at the first line.  The property is kept by every record
    emitted, so it holds of a mapping filled from empty. *)
Theorem emit_all_one_line (P : Platform) (records : list LogRecord) (h : SphinxLogHandler) :
  (forall doc ds, diagnostics h !! doc = Some ds -> Forall one_line ds) ->
  forall doc ds,
    diagnostics (emit_all P records h).1 !! doc = Some ds -> Forall one_line ds.
Proof.
  revert h. induction records as [|r rest IH]; intros h Hinv; simpl; [exact Hinv|].
  pose proof (emit_one_line P r h Hinv) as H1.
  destruct (emit P r h) as [h1 [e|]]; simpl in *; [exact H1|].
  apply IH. exact H1.
Qed.

Lemma emit_all_one_line_witness :
  Forall one_line
    [make_diagnostic 1 (Sample.warning_at "/ws/docs/a.rst:0" "zero");
     make_diagnostic 1 (Sample.warning_at "/ws/docs/a.rst" "none")].
Proof.
  apply (emit_all_one_line Posix.platform
           [Sample.warning_at "/ws/docs/a.rst:0" "zero";
            Sample.warning_at "/ws/docs/a.rst" "none"]
           (Sample.handler FallbackOnceFilter)) with "file:///ws/docs/a.rst".
  - intros doc ds H. simpl in H. rewrite lookup_empty in H. discriminate.
  - reflexivity.
Defined.

(** * Further properties of the indices *)

Lemma insert_fold_lookup {V : Type} (l : list (string * V)) :
  forall (table : gmap string V) (key : string),
    fold_left (fun table '(k, x) => <[k := x]> table) l table !! key =
      match last_entry key l with
      | Some x => Some x
      | None => table !! key
      end.
Proof.
  induction l as [|[k x] rest IH]; intros table key; simpl; [reflexivity|].
  rewrite IH. destruct (last_entry key rest); [reflexivity|].
  destruct (String.eqb_spec k key) as [->|Hne].
  - apply lookup_insert_eq.
  - apply lookup_insert_ne. exact Hne.
Qed.

Lemma merge_entries_flat {V : Type} (entries : Domain -> list (string * V))
    (doms : list (string * Domain)) :
  forall table : gmap string V,
    merge_entries entries doms table
    = fold_left (fun table '(k, x) => <[k := x]> table) (qualified_entries entries doms) table.
Proof.
  unfold merge_entries, qualified_entries.
  induction doms as [|[prefix domain] rest IH]; intros table; simpl; [reflexivity|].
  rewrite fold_left_app, IH. f_equal.
  generalize (entries domain) table. clear.
  intros l. induction l as [|[name x] l IH]; intros table; simpl; [reflexivity|].
  apply IH.
Qed.

(** The table of roles, and that of directives, when the cache is empty:
    a key is mapped to the entry of the last domain, in the order of
    [app.env.domains], that has an entry of that qualified name, and to the
    entry of the base table when no domain has one.  The domains [std] and
    the primary domain share the names without prefix, so that of two roles
    of the same name the one of the later domain is kept.  The table is
    stored in the cache, and without an application it is the base table. *)
Theorem get_roles_table (s : Server) :
  _roles s = None ->
  exists table,
    get_roles s = Returned table (set_roles (Some table) s)
    /\ (forall key,
          table !! key =
            match last_entry key (qualified_entries roles (get_domains s)) with
            | Some role => Some role
            | None => rst_roles s !! key
            end)
    /\ (app s = None -> table = rst_roles s).
Proof.
  intros Hnone. exists (merge_entries roles (get_domains s) (rst_roles s)).
  repeat apply conj.
  - unfold get_roles. rewrite Hnone. reflexivity.
  - intros key. rewrite merge_entries_flat. apply insert_fold_lookup.
  - intros Happ. unfold get_domains. rewrite Happ. reflexivity.
Qed.

Lemma get_roles_table_witness :
  exists table,
    get_roles (set_app (Some Sample.py_app) Sample.fresh)
    = Returned table (set_roles (Some table) (set_app (Some Sample.py_app) Sample.fresh))
    /\ table !! "func" = Some "py-func-role"
    /\ table !! "ref" = Some "std-ref-role"
    /\ table !! "py:func" = None.
Proof.
  destruct (get_roles_table (set_app (Some Sample.py_app) Sample.fresh) eq_refl)
    as (table & Hget & Hlookup & _).
  exists table. repeat apply conj.
  - exact Hget.
  - rewrite Hlookup. reflexivity.
  - rewrite Hlookup. reflexivity.
  - rewrite Hlookup. reflexivity.
Defined.

(** The same for the directives. *)
Theorem get_directives_table (s : Server) :
  _directives s = None ->
  exists table,
    get_directives s = Returned table (set_directives (Some table) s)
    /\ (forall key,
          table !! key =
            match last_entry key (qualified_entries directives (get_domains s)) with
            | Some directive => Some directive
            | None => rst_directives s !! key
            end)
    /\ (app s = None -> table = rst_directives s).
Proof.
  intros Hnone. exists (merge_entries directives (get_domains s) (rst_directives s)).
  repeat apply conj.
  - unfold get_directives. rewrite Hnone. reflexivity.
  - intros key. rewrite merge_entries_flat. apply insert_fold_lookup.
  - intros Happ. unfold get_domains. rewrite Happ. reflexivity.
Qed.

Lemma get_directives_table_witness :
  exists table,
    get_directives (set_app (Some Sample.c_app) Sample.fresh)
    = Returned table (set_directives (Some table) (set_app (Some Sample.c_app) Sample.fresh))
    /\ table !! "c:function" = Some "c-function-directive"
    /\ table !! "option" = Some "std-option-directive"
    /\ table !! "function" = None.
Proof.
  destruct (get_directives_table (set_app (Some Sample.c_app) Sample.fresh) eq_refl)
    as (table & Hget & Hlookup & _).
  exists table. repeat apply conj.
  - exact Hget.
  - rewrite Hlookup. reflexivity.
  - rewrite Hlookup. reflexivity.
  - rewrite Hlookup. reflexivity.
Defined.

Lemma append_fold_get_list {V : Type} (l : list (string * V)) :
  forall (table : gmap string (list V)) (key : string),
    get_list (fold_left (fun table '(k, v) => <[k := get_list table k ++ [v]]> table) l table)
             key
    = get_list table key ++ grouped key l.
Proof.
  unfold grouped.
  induction l as [|[k v] rest IH]; intros table key; simpl.
  - rewrite app_nil_r. reflexivity.
  - rewrite IH. destruct (String.eqb_spec k key) as [->|Hne]; simpl.
    + unfold get_list at 1. rewrite lookup_insert_eq. simpl.
      rewrite <- app_assoc. reflexivity.
    + unfold get_list at 1. rewrite lookup_insert_ne by exact Hne. reflexivity.
Qed.

Lemma index_role_target_types_flat (doms : list (string * Domain)) :
  index_role_target_types doms
  = fold_left (fun table '(k, v) => <[k := get_list table k ++ [v]]> table)
              (target_type_pairs doms) ∅.
Proof.
  unfold index_role_target_types, target_type_pairs. generalize (∅ : gmap string (list string)).
  induction doms as [|[prefix domain] rest IH]; intros table; simpl; [reflexivity|].
  rewrite fold_left_app, IH. f_equal.
  generalize (object_types domain) table. clear.
  intros l. induction l as [|[name item_roles] l IH]; intros table; simpl; [reflexivity|].
  rewrite fold_left_app, IH. f_equal.
  generalize table. clear.
  induction item_roles as [|role item_roles IH]; intros table; simpl; [reflexivity|].
  apply IH.
Qed.

Lemma index_role_targets_flat (doms : list (string * Domain)) :
  index_role_targets doms
  = fold_left (fun table '(k, v) => <[k := get_list table k ++ [v]]> table)
              (object_pairs doms) ∅.
Proof.
  unfold index_role_targets, object_pairs. generalize (∅ : gmap string (list DomainObject)).
  induction doms as [|[prefix domain] rest IH]; intros table; simpl; [reflexivity|].
  rewrite fold_left_app, IH. f_equal.
  generalize (get_objects domain) table. clear.
  intros l. induction l as [|obj l IH]; intros table; simpl; [reflexivity|].
  apply IH.
Qed.

Lemma get_list_empty {V : Type} (key : string) : get_list (∅ : gmap string (list V)) key = [].
Proof. unfold get_list. rewrite lookup_empty. reflexivity. Qed.

Lemma index_role_target_types_grouped (doms : list (string * Domain)) (key : string) :
  get_list (index_role_target_types doms) key = grouped key (target_type_pairs doms).
Proof.
  rewrite index_role_target_types_flat, append_fold_get_list, get_list_empty. reflexivity.
Qed.

Lemma index_role_targets_grouped (doms : list (string * Domain)) (key : string) :
  get_list (index_role_targets doms) key = grouped key (object_pairs doms).
Proof.
  rewrite index_role_targets_flat, append_fold_get_list, get_list_empty. reflexivity.
Qed.

(** The target types of a role, when the cache is empty: the qualified
    object types that list the role, over all domains, in the order of the
    domains and of their object types, a type being repeated if it lists the
    role twice.  An unknown role gives the empty list, and so does every role
    when there is no application; the index is stored in the cache. *)
Theorem get_role_target_types_index (s : Server) (name domain : string) :
  _role_target_types s = None ->
  exists table,
    get_role_target_types name domain s
    = Returned (grouped (role_key name domain) (target_type_pairs (get_domains s)))
               (set_role_target_types (Some table) s)
    /\ (forall key, get_list table key = grouped key (target_type_pairs (get_domains s)))
    /\ (app s = None ->
        get_role_target_types name domain s
        = Returned [] (set_role_target_types (Some ∅) s)).
Proof.
  intros Hnone. exists (index_role_target_types (get_domains s)).
  assert (Hindex : forall key,
            get_list (index_role_target_types (get_domains s)) key
            = grouped key (target_type_pairs (get_domains s))).
  { intros key. rewrite index_role_target_types_flat, append_fold_get_list.
    rewrite get_list_empty. reflexivity. }
  repeat apply conj.
  - unfold get_role_target_types. rewrite Hnone.
    fold (role_key name domain). rewrite Hindex. reflexivity.
  - exact Hindex.
  - intros Happ. unfold get_role_target_types, get_domains. rewrite Hnone, Happ.
    reflexivity.
Qed.

Lemma get_role_target_types_index_witness :
  exists s',
    get_role_target_types "obj" "" (set_app (Some Sample.py_app) Sample.fresh)
    = Returned ["function"; "class"] s'
    /\ get_role_target_types "func" "c" (set_app (Some Sample.c_app) Sample.fresh)
       = Returned ["c:function"]
           (set_role_target_types
              (Some (index_role_target_types (domains_of Sample.c_app)))
              (set_app (Some Sample.c_app) Sample.fresh)).
Proof.
  destruct (get_role_target_types_index (set_app (Some Sample.py_app) Sample.fresh)
              "obj" "" eq_refl) as (table & Hget & _ & _).
  eexists. split; [exact Hget|]. reflexivity.
Defined.

(** The targets of a role, when both caches are empty: for each target type
    of the role in turn, the objects of all domains whose qualified type is
    that type, in the order the domains enumerate them.  Both indices are
    stored in their caches. *)
Theorem get_role_targets_index (s : Server) (name domain : string) :
  _role_target_types s = None ->
  _role_targets s = None ->
  let types := grouped (role_key name domain) (target_type_pairs (get_domains s)) in
  let objects := object_pairs (get_domains s) in
  exists s',
    get_role_targets name domain s
    = Returned (concat (map (fun target_type => grouped target_type objects) types)) s'
    /\ (exists table,
          _role_targets s' = Some table
          /\ forall key, get_list table key = grouped key objects)
    /\ is_Some (_role_target_types s')
    /\ app s' = app s.
Proof.
  intros Htypes Htargets types objects.
  assert (Hindex : forall key,
            get_list (index_role_targets (get_domains s)) key = grouped key objects).
  { intros key. rewrite index_role_targets_flat, append_fold_get_list.
    rewrite get_list_empty. reflexivity. }
  assert (Hget : get_role_target_types name domain
                   (set_role_targets (Some (index_role_targets (get_domains s))) s)
                 = Returned types
                     (set_role_target_types (Some (index_role_target_types (get_domains s)))
                        (set_role_targets (Some (index_role_targets (get_domains s))) s))).
  { unfold get_role_target_types. simpl. rewrite Htypes.
    fold (role_key name domain).
    change (get_domains (set_role_targets (Some (index_role_targets (get_domains s))) s))
      with (get_domains s).
    rewrite index_role_target_types_grouped. reflexivity. }
  eexists. repeat apply conj.
  - unfold get_role_targets.
    unfold mbind at 1. unfold Py_bind. rewrite Htargets. simpl.
    rewrite (Py_bind_returned _ _ _ _ _ Hget).
    unfold mbind, Py_bind, read, mret, Py_ret. simpl.
    f_equal. f_equal. apply map_ext. intros target_type. apply Hindex.
  - exists (index_role_targets (get_domains s)). split; [reflexivity|exact Hindex].
  - simpl. eauto.
  - reflexivity.
Qed.

Lemma get_role_targets_index_witness :
  exists s',
    get_role_targets "func" "" (set_app (Some Sample.py_app) Sample.fresh)
    = Returned [ {| obj_name := "pkg.run"; obj_dispname := "pkg.run";
                    obj_type := "function"; obj_docname := "api";
                    obj_anchor := "pkg.run"; obj_priority := 1 |} ] s'.
Proof.
  destruct (get_role_targets_index (set_app (Some Sample.py_app) Sample.fresh) "func" ""
              eq_refl eq_refl) as (s' & Hget & _).
  exists s'. exact Hget.
Defined.

(** Asking again gives the same answer: once a query of an index has
    returned, the same query on the server it left returns the same value,
    in the same order, and leaves the server as it is. *)
Theorem queries_are_stable (s : Server) :
  (forall table s1, get_roles s = Returned table s1 -> get_roles s1 = Returned table s1)
  /\ (forall table s1,
        get_directives s = Returned table s1 -> get_directives s1 = Returned table s1)
  /\ (forall name domain types s1,
        get_role_target_types name domain s = Returned types s1 ->
        get_role_target_types name domain s1 = Returned types s1)
  /\ (forall name domain targets s1,
        get_role_targets name domain s = Returned targets s1 ->
        get_role_targets name domain s1 = Returned targets s1).
Proof.
  repeat apply conj.
  - intros table s1. unfold get_roles.
    destruct (_roles s) eqn:Hc; intros H; injection H as <- <-; simpl; [rewrite Hc|];
      reflexivity.
  - intros table s1. unfold get_directives.
    destruct (_directives s) eqn:Hc; intros H; injection H as <- <-; simpl; [rewrite Hc|];
      reflexivity.
  - intros name domain types s1. unfold get_role_target_types.
    destruct (_role_target_types s) eqn:Hc; intros H; injection H as <- <-; simpl;
      [rewrite Hc|]; reflexivity.
  - intros name domain targets s1. rewrite !get_role_targets_unfold.
    unfold get_role_target_types.
    destruct (_role_targets s) eqn:Ht; destruct (_role_target_types s) eqn:Hy; simpl;
      repeat (rewrite ?Ht, ?Hy; simpl);
      intros H; injection H as <- <-; simpl;
      repeat (rewrite ?Ht, ?Hy; simpl); reflexivity.
Qed.

Lemma queries_are_stable_witness :
  exists targets s1,
    get_role_targets "func" "" (set_app (Some Sample.py_app) Sample.fresh)
    = Returned targets s1
    /\ get_role_targets "func" "" s1 = Returned targets s1.
Proof.
  destruct (get_role_targets "func" "" (set_app (Some Sample.py_app) Sample.fresh))
    as [targets s1|e s1] eqn:Hget; [|vm_compute in Hget; discriminate].
  exists targets, s1. split; [reflexivity|].
  apply (proj2 (proj2 (proj2 (queries_are_stable
                                (set_app (Some Sample.py_app) Sample.fresh))))).
  exact Hget.
Defined.

(** * Further properties of the intersphinx queries *)

(** Unlike [get_domains], the two intersphinx queries do not test for a
    missing application: without one they raise an [AttributeError].  With
    an application whose environment has no [intersphinx_named_inventory]
    there are no projects and no targets; and for a project the inventory
    does not name, the targets are empty and the server is left as it is,
    the role's target types not being looked up at all. *)
Theorem intersphinx_edge_cases (s : Server) (project name domain : string) :
  (app s = None ->
     get_intersphinx_projects s
     = Raised (AttributeError "'NoneType' object has no attribute 'env'") s
     /\ get_intersphinx_targets project name domain s
        = Raised (AttributeError "'NoneType' object has no attribute 'env'") s)
  /\ (forall a,
        app s = Some a -> env_intersphinx_named_inventory a = None ->
        get_intersphinx_projects s = Returned [] s
        /\ get_intersphinx_targets project name domain s = Returned ∅ s)
  /\ (forall a named,
        app s = Some a -> env_intersphinx_named_inventory a = Some named ->
        named !! project = None ->
        get_intersphinx_targets project name domain s = Returned ∅ s).
Proof.
  repeat apply conj.
  - intros Happ. unfold get_intersphinx_projects, get_intersphinx_targets.
    split; apply Py_bind_raised; unfold app_env; rewrite Happ; reflexivity.
  - intros a Happ Hinv. unfold get_intersphinx_projects, get_intersphinx_targets.
    rewrite !(Py_bind_returned _ _ _ _ _ (app_env_some _ _ Happ)).
    rewrite Hinv. simpl. rewrite lookup_empty. split; reflexivity.
  - intros a named Happ Hinv Hproject. unfold get_intersphinx_targets.
    rewrite (Py_bind_returned _ _ _ _ _ (app_env_some _ _ Happ)).
    rewrite Hinv. simpl. rewrite Hproject. reflexivity.
Qed.

Lemma intersphinx_edge_cases_witness :
  get_intersphinx_targets "python" "func" "" Sample.fresh
  = Raised (AttributeError "'NoneType' object has no attribute 'env'") Sample.fresh
  /\ get_intersphinx_projects (set_app (Some Sample.c_app) Sample.fresh)
     = Returned [] (set_app (Some Sample.c_app) Sample.fresh)
  /\ get_intersphinx_targets "numpy" "func" "" (set_app (Some Sample.py_app) Sample.fresh)
     = Returned ∅ (set_app (Some Sample.py_app) Sample.fresh).
Proof.
  repeat apply conj.
  - apply (proj1 (intersphinx_edge_cases Sample.fresh "python" "func" "")). reflexivity.
  - apply (proj1 (proj2 (intersphinx_edge_cases (set_app (Some Sample.c_app) Sample.fresh)
                           "python" "func" "")) Sample.c_app); reflexivity.
  - apply (proj2 (proj2 (intersphinx_edge_cases (set_app (Some Sample.py_app) Sample.fresh)
                           "numpy" "func" "")) Sample.py_app Sample.inventory); reflexivity.
Defined.

(** * Further properties of the directories *)

Lemma ignored_spec candidate :
  existsb (fun p => PyStr.contains p candidate) ignore_paths = true <-> ignored candidate.
Proof.
  unfold ignored, ignore_paths. simpl. rewrite orb_false_r, orb_true_iff. reflexivity.
Qed.

Lemma filter_skips_ignored (before : list string) (rest : list string) :
  Forall ignored before ->
  List.filter
    (fun candidate => negb (existsb (fun p => PyStr.contains p candidate) ignore_paths))
    (before ++ rest)
  = List.filter
      (fun candidate => negb (existsb (fun p => PyStr.contains p candidate) ignore_paths))
      rest.
Proof.
  induction before as [|c before IH]; intros Hall; simpl; [reflexivity|].
  inversion Hall as [|? ? Hc Hrest]; subst.
  apply ignored_spec in Hc. simpl in Hc. simpl. rewrite Hc. simpl. apply IH. exact Hrest.
Qed.

(** [find_conf_dir] with a [SphinxConfig].  A [confDir] that is set and not
    empty decides alone, expanded by [expand_conf_dir]: the workspace is not
    searched.  Otherwise, an empty [confDir] counting as none, the
    directory is the parent of the first [conf.py] the search yields whose
    path contains neither [.tox] nor [site-packages]; when every candidate
    is skipped, or there is none, the result is [None]. *)
Theorem find_conf_dir_discovery (P : Platform) (glob : string -> list string)
    (root_uri : string) (config : SphinxConfig) :
  let root := path_join P [to_fs_path P root_uri] in
  (forall cd,
     conf_dir config = Some cd -> cd <> "" ->
     find_conf_dir P glob root_uri (OfSphinxConfig config)
     = Ok (Some (expand_conf_dir P root cd)))
  /\ (conf_dir config = None \/ conf_dir config = Some "" ->
      (Forall ignored (glob root) ->
         find_conf_dir P glob root_uri (OfSphinxConfig config) = Ok None)
      /\ (forall before candidate after,
            glob root = before ++ candidate :: after ->
            Forall ignored before -> ~ ignored candidate ->
            find_conf_dir P glob root_uri (OfSphinxConfig config)
            = Ok (Some (AsPath (path_parent P candidate))))).
Proof.
  intros root. split.
  - intros cd Hcd Hne. unfold find_conf_dir. simpl. rewrite Hcd.
    destruct cd; [congruence|reflexivity].
  - intros Hunset.
    assert (Hfalsy : str_truthy (conf_dir config) = None)
      by (destruct Hunset as [-> | ->]; reflexivity).
    split.
    + intros Hall. unfold find_conf_dir, getattr_conf_dir, mbind, result_bind.
      cbv beta iota. rewrite Hfalsy. fold root.
      pose proof (filter_skips_ignored (glob root) [] Hall) as Hnone.
      rewrite app_nil_r in Hnone. rewrite Hnone. reflexivity.
    + intros before candidate after Hglob Hbefore Hcandidate.
      unfold find_conf_dir, getattr_conf_dir, mbind, result_bind.
      cbv beta iota. rewrite Hfalsy. fold root.
      rewrite Hglob, (filter_skips_ignored before _ Hbefore).
      cbn [List.filter].
      destruct (existsb (fun p => PyStr.contains p candidate) ignore_paths) eqn:Hex.
      * exfalso. apply Hcandidate, ignored_spec. exact Hex.
      * reflexivity.
Qed.

Lemma find_conf_dir_discovery_witness :
  find_conf_dir Posix.platform
    (fun _ => ["/ws/.tox/py/lib/conf.py"; "/ws/docs/conf.py"; "/ws/other/conf.py"])
    "file:///ws" (OfSphinxConfig Sample.default_sphinx_config)
  = Ok (Some (AsPath "/ws/docs")).
Proof.
  apply (proj2 (proj2 (find_conf_dir_discovery Posix.platform
                         (fun _ => ["/ws/.tox/py/lib/conf.py"; "/ws/docs/conf.py";
                                    "/ws/other/conf.py"])
                         "file:///ws" Sample.default_sphinx_config)
                  (or_introl eq_refl))
           ["/ws/.tox/py/lib/conf.py"] "/ws/docs/conf.py" ["/ws/other/conf.py"]).
  - reflexivity.
  - repeat constructor.
  - intros [H|H]; discriminate H.
Defined.

(** [get_src_dir].  Without a [srcDir], an empty one counting as none, the
    source directory is the configuration directory itself.  A [srcDir]
    that does not begin with a placeholder, or begins with one that is
    neither [workspaceRoot] nor [confDir], is returned as it is.  One that
    begins with [${confDir}] is resolved against the configuration
    directory, one that begins with [${workspaceRoot}] against the
    workspace root, the first part of the path being dropped. *)
Theorem get_src_dir_cases (P : Platform) (root_uri : string) (cd : pathlike)
    (config : SphinxConfig) :
  (src_dir config = None \/ src_dir config = Some "" ->
     get_src_dir P root_uri cd config = cd)
  /\ (forall src,
        src_dir config = Some src -> src <> "" ->
        ((forall name, ~ begins_with_placeholder src name) ->
           get_src_dir P root_uri cd config = AsStr src)
        /\ (forall name,
              begins_with_placeholder src name ->
              name <> "workspaceRoot" -> name <> "confDir" ->
              get_src_dir P root_uri cd config = AsStr src)
        /\ (begins_with_placeholder src "confDir" ->
              get_src_dir P root_uri cd config
              = AsPath (path_resolve P
                          (path_join P (pathlike_str cd :: tail (path_parts P src)))))
        /\ (begins_with_placeholder src "workspaceRoot" ->
              get_src_dir P root_uri cd config
              = AsPath (path_resolve P
                          (path_join P (to_fs_path P root_uri :: tail (path_parts P src)))))).
Proof.
  split.
  - intros [H|H]; unfold get_src_dir; rewrite H; reflexivity.
  - intros src Hsrc Hne.
    assert (Htruthy : str_truthy (src_dir config) = Some src)
      by (rewrite Hsrc; destruct src; [congruence|reflexivity]).
    unfold get_src_dir. rewrite Htruthy. repeat apply conj.
    + intros Hno. apply PATH_VAR_PATTERN_match_none in Hno. rewrite Hno.
      rewrite !bool_decide_eq_false_2 by discriminate. reflexivity.
    + intros name Hb Hw Hc. apply PATH_VAR_PATTERN_match_spec in Hb. rewrite Hb.
      rewrite !bool_decide_eq_false_2 by congruence. reflexivity.
    + intros Hb. apply PATH_VAR_PATTERN_match_spec in Hb. rewrite Hb.
      rewrite bool_decide_eq_false_2 by discriminate.
      rewrite bool_decide_eq_true_2 by reflexivity. reflexivity.
    + intros Hb. apply PATH_VAR_PATTERN_match_spec in Hb. rewrite Hb.
      rewrite bool_decide_eq_true_2 by reflexivity. reflexivity.
Qed.

Lemma get_src_dir_cases_witness :
  let with_src src :=
    {| version := None; conf_dir := None; src_dir := src; build_dir := None;
       builder_name := "html" |} in
  get_src_dir Posix.platform "file:///ws" (AsPath "/ws/docs") (with_src (Some ""))
  = AsPath "/ws/docs"
  /\ get_src_dir Posix.platform "file:///ws" (AsPath "/ws/docs")
       (with_src (Some "${confDir}/../src"))
     = AsPath "/ws/docs/../src"
  /\ get_src_dir Posix.platform "file:///ws" (AsPath "/ws/docs")
       (with_src (Some "${buildDir}/src"))
     = AsStr "${buildDir}/src".
Proof.
  intros with_src. repeat apply conj.
  - apply (proj1 (get_src_dir_cases Posix.platform "file:///ws" (AsPath "/ws/docs")
                    (with_src (Some "")))).
    right. reflexivity.
  - apply (proj1 (proj2 (proj2 (proj2 (get_src_dir_cases Posix.platform "file:///ws"
                    (AsPath "/ws/docs") (with_src (Some "${confDir}/../src")))
                    "${confDir}/../src" eq_refl ltac:(discriminate))))).
    split; [discriminate|]. split; [reflexivity|]. exists "/../src". reflexivity.
  - apply (proj1 (proj2 (proj2 (get_src_dir_cases Posix.platform "file:///ws"
                    (AsPath "/ws/docs") (with_src (Some "${buildDir}/src")))
                    "${buildDir}/src" eq_refl ltac:(discriminate))) "buildDir").
    + split; [discriminate|]. split; [reflexivity|]. exists "/src". reflexivity.
    + discriminate.
    + discriminate.
Defined.

(** * Further properties of the server's life cycle *)

(** The ways [create_sphinx_app] can end, and the server it leaves. *)
Lemma create_sphinx_app_cases (P : Platform) (W : World) (options : InitializationOptions)
    (s : Server) :
  match sphinx options with
  | None =>
      create_sphinx_app P W options s
      = Raised (AttributeError "'NoneType' object has no attribute 'dict'") s
  | Some cfg =>
      match find_conf_dir P (glob_conf_py W) (workspace_root_uri s) (OfSphinxConfig cfg) with
      | Raise e => create_sphinx_app P W options s = Raised e s
      | Ok None => create_sphinx_app P W options s = Raised MissingConfigError s
      | Ok (Some cd) =>
          match new_Sphinx W cd cfg with
          | Raise e => create_sphinx_app P W options s = Raised e s
          | Ok a =>
              match server options with
              | None =>
                  create_sphinx_app P W options s
                  = Raised (AttributeError
                              "'NoneType' object has no attribute 'hide_sphinx_output'")
                           (set_sphinx_log (sphinx_log s) false s)
              | Some srv =>
                  create_sphinx_app P W options s
                  = Returned a
                      (if bool_decide (hide_sphinx_output srv = Some true)
                       then set_sphinx_log (sphinx_log s) false s
                       else set_sphinx_log (Some (SphinxLogHandler_new W a)) true s)
              end
          end
      end
  end.
Proof.
  destruct (sphinx options) as [cfg|] eqn:Hcfg.
  - destruct (find_conf_dir P (glob_conf_py W) (workspace_root_uri s) (OfSphinxConfig cfg))
      as [[cd|]|e] eqn:Hfind.
    + destruct (new_Sphinx W cd cfg) as [a|e] eqn:Hnew.
      * destruct (server options) as [srv|] eqn:Hsrv;
          unfold create_sphinx_app; rewrite Hcfg, Hsrv;
          unfold mbind, Py_bind, lift, read, update, raise, mret, Py_ret; simpl;
          rewrite Hfind; simpl; rewrite Hnew; simpl; [|reflexivity].
        destruct (bool_decide (hide_sphinx_output srv = Some true)); reflexivity.
      * unfold create_sphinx_app; rewrite Hcfg;
          unfold mbind, Py_bind, lift, read, update, raise, mret, Py_ret; simpl;
          rewrite Hfind; simpl; rewrite Hnew; reflexivity.
    + unfold create_sphinx_app; rewrite Hcfg;
        unfold mbind, Py_bind, lift, read, update, raise, mret, Py_ret; simpl;
        rewrite Hfind; reflexivity.
    + unfold create_sphinx_app; rewrite Hcfg;
        unfold mbind, Py_bind, lift, read, update, raise, mret, Py_ret; simpl;
        rewrite Hfind; reflexivity.
  - unfold create_sphinx_app. rewrite Hcfg. reflexivity.
Qed.

(** [create_sphinx_app] and the log handler.  When no configuration
    directory is found it raises [MissingConfigError] and leaves the server
    untouched.  When it returns, the server has a new handler for the new
    application, attached to the logger and with an empty mapping, unless
    [hide_sphinx_output] is true, in which case [sphinx_log] is what it was
    and is no longer attached; the application itself is not yet assigned,
    and nothing has been sent or stored. *)
Theorem create_sphinx_app_installs_handler (P : Platform) (W : World)
    (options : InitializationOptions) (s : Server) :
  (forall cfg,
     sphinx options = Some cfg ->
     find_conf_dir P (glob_conf_py W) (workspace_root_uri s) (OfSphinxConfig cfg) = Ok None ->
     create_sphinx_app P W options s = Raised MissingConfigError s)
  /\ (forall a s1,
        create_sphinx_app P W options s = Returned a s1 ->
        exists srv,
          server options = Some srv
          /\ (hide_sphinx_output srv <> Some true ->
              sphinx_log s1 = Some (SphinxLogHandler_new W a)
              /\ sphinx_log_attached s1 = true
              /\ diagnostics (SphinxLogHandler_new W a) = ∅)
          /\ (hide_sphinx_output srv = Some true ->
              sphinx_log s1 = sphinx_log s /\ sphinx_log_attached s1 = false)
          /\ app s1 = app s
          /\ sent s1 = sent s
          /\ _diagnostics s1 = _diagnostics s
          /\ caches s1 = caches s).
Proof.
  pose proof (create_sphinx_app_cases P W options s) as Hcases.
  split.
  - intros cfg Hcfg Hfind. rewrite Hcfg, Hfind in Hcases. exact Hcases.
  - intros a s1 Hret.
    destruct (sphinx options) as [cfg|]; [|congruence].
    destruct (find_conf_dir P (glob_conf_py W) (workspace_root_uri s) (OfSphinxConfig cfg))
      as [[cd|]|e]; try congruence.
    destruct (new_Sphinx W cd cfg) as [a'|e]; [|congruence].
    destruct (server options) as [srv|]; [|congruence].
    rewrite Hcases in Hret. injection Hret as <- <-.
    exists srv. split; [reflexivity|].
    destruct (bool_decide_reflect (hide_sphinx_output srv = Some true)) as [Hhide|Hshow].
    + split; [intros Hne; contradiction|].
      split; [intros _; split; reflexivity|].
      repeat split.
    + split; [intros _; repeat split|].
      split; [intros Heq; contradiction|].
      repeat split.
Qed.

Lemma create_sphinx_app_installs_handler_witness :
  create_sphinx_app Posix.platform Sample.empty_world (Sample.options None) Sample.fresh
  = Raised MissingConfigError Sample.fresh
  /\ exists a s1,
       create_sphinx_app Posix.platform Sample.quiet_world (Sample.options (Some false))
         Sample.fresh = Returned a s1
       /\ sphinx_log s1 = Some (SphinxLogHandler_new Sample.quiet_world a)
       /\ app s1 = None.
Proof.
  split.
  - apply (proj1 (create_sphinx_app_installs_handler Posix.platform Sample.empty_world
                    (Sample.options None) Sample.fresh) Sample.default_sphinx_config);
      reflexivity.
  - destruct (create_sphinx_app Posix.platform Sample.quiet_world
                (Sample.options (Some false)) Sample.fresh) as [a s1|e s1] eqn:Hcreate;
      [|vm_compute in Hcreate; discriminate].
    destruct (proj2 (create_sphinx_app_installs_handler Posix.platform Sample.quiet_world
                       (Sample.options (Some false)) Sample.fresh) a s1 Hcreate)
      as (srv & Hsrv & Hshow & _ & Happ & _).
    exists a, s1. split; [reflexivity|].
    injection Hsrv as <-. split; [apply Hshow; discriminate|exact Happ].
Defined.

Lemma create_sphinx_app_returned (P : Platform) (W : World) options s a s1 :
  create_sphinx_app P W options s = Returned a s1 ->
  app s1 = app s /\ sent s1 = sent s /\ _diagnostics s1 = _diagnostics s.
Proof.
  pose proof (create_sphinx_app_cases P W options s) as Hcases.
  destruct (sphinx options) as [cfg|]; [|congruence].
  destruct (find_conf_dir P (glob_conf_py W) (workspace_root_uri s) (OfSphinxConfig cfg))
    as [[cd|]|e]; try congruence.
  destruct (new_Sphinx W cd cfg) as [a'|e]; [|congruence].
  destruct (server options) as [srv|]; [|congruence].
  rewrite Hcases. intros H. injection H as <- <-.
  destruct (bool_decide (hide_sphinx_output srv = Some true)); repeat split.
Qed.

Lemma create_sphinx_app_raised (P : Platform) (W : World) options s e s1 :
  create_sphinx_app P W options s = Raised e s1 ->
  app s1 = app s /\ sent s1 = sent s /\ _diagnostics s1 = _diagnostics s.
Proof.
  pose proof (create_sphinx_app_cases P W options s) as Hcases.
  destruct (sphinx options) as [cfg|].
  - destruct (find_conf_dir P (glob_conf_py W) (workspace_root_uri s) (OfSphinxConfig cfg))
      as [[cd|]|e'].
    + destruct (new_Sphinx W cd cfg) as [a|e''].
      * destruct (server options) as [srv|]; rewrite Hcases; intros H;
          [discriminate|]. injection H as <- <-. repeat split.
      * rewrite Hcases. intros H. injection H as <- <-. repeat split.
    + rewrite Hcases. intros H. injection H as <- <-. repeat split.
    + rewrite Hcases. intros H. injection H as <- <-. repeat split.
  - rewrite Hcases. intros H. injection H as <- <-. repeat split.
Qed.

Lemma _initialize_sphinx_failed (P : Platform) (W : World) s e s1 :
  create_sphinx_app P W (user_config s) s = Raised e s1 ->
  _initialize_sphinx P W s =
    Returned None
      (match e with
       | MissingConfigError =>
           send [ShowMessage
                   "Unable to find your 'conf.py', features that depend on Sphinx will be unavailable"
                   MessageType_Warning] s1
       | _ =>
           send [ShowMessage
                   "Unable to initialize Sphinx, see output window for details."
                   MessageType_Error] (send [LoggedError e] s1)
       end).
Proof.
  intros Hcreate.
  unfold _initialize_sphinx. unfold mbind at 1. unfold Py_bind, read, try_except.
  rewrite (Py_bind_raised _ _ _ _ _ Hcreate). destruct e; reflexivity.
Qed.

(** Whichever way [create_sphinx_app] ends, it changes nothing of the
    server but the log handler. *)
Lemma create_sphinx_app_frame (P : Platform) (W : World) options s :
  let s1 := state_of (create_sphinx_app P W options s) in
  app s1 = app s /\ sent s1 = sent s /\ _diagnostics s1 = _diagnostics s
  /\ user_config s1 = user_config s.
Proof.
  pose proof (create_sphinx_app_cases P W options s) as Hcases.
  destruct (sphinx options) as [cfg|].
  - destruct (find_conf_dir P (glob_conf_py W) (workspace_root_uri s) (OfSphinxConfig cfg))
      as [[cd|]|e'].
    + destruct (new_Sphinx W cd cfg) as [a|e''].
      * destruct (server options) as [srv|]; rewrite Hcases; simpl; [|repeat split].
        destruct (bool_decide (hide_sphinx_output srv = Some true)); repeat split.
      * rewrite Hcases. repeat split.
    + rewrite Hcases. repeat split.
    + rewrite Hcases. repeat split.
  - rewrite Hcases. repeat split.
Qed.

(** [_initialize_sphinx] never raises.  When [create_sphinx_app] returns an
    application, that application is the result and nothing is shown.  When
    it raises, the result is [None] and the user is told: a warning that
    [conf.py] could not be found for a [MissingConfigError], and for any
    other exception an error message, after the exception has been logged.
    The method does not assign [self.app] itself and leaves the stored
    diagnostics alone. *)
Theorem _initialize_sphinx_never_raises (P : Platform) (W : World) (s : Server) :
  exists r s',
    _initialize_sphinx P W s = Returned r s'
    /\ app s' = app s
    /\ _diagnostics s' = _diagnostics s
    /\ match r with
       | Some a =>
           create_sphinx_app P W (user_config s) s = Returned a s' /\ sent s' = sent s
       | None =>
           exists e s1,
             create_sphinx_app P W (user_config s) s = Raised e s1
             /\ sent s'
                = sent s
                  ++ match e with
                     | MissingConfigError =>
                         [ShowMessage
                            "Unable to find your 'conf.py', features that depend on Sphinx will be unavailable"
                            MessageType_Warning]
                     | _ =>
                         [LoggedError e;
                          ShowMessage
                            "Unable to initialize Sphinx, see output window for details."
                            MessageType_Error]
                     end
       end.
Proof.
  destruct (create_sphinx_app P W (user_config s) s) as [a s1|e s1] eqn:Hcreate.
  - exists (Some a), s1.
    destruct (create_sphinx_app_returned P W (user_config s) s a s1 Hcreate)
      as (Happ & Hsent & Hdiag).
    rewrite (_initialize_sphinx_created P W s a s1 Hcreate).
    repeat split; assumption.
  - destruct (create_sphinx_app_raised P W _ s e s1 Hcreate) as (Happ & Hsent & Hdiag).
    pose proof (_initialize_sphinx_failed P W s e s1 Hcreate) as Hinit.
    eexists None, _. split; [exact Hinit|].
    repeat apply conj.
    + destruct e; simpl; exact Happ.
    + destruct e; simpl; exact Hdiag.
    + exists e, s1. split; [reflexivity|].
      destruct e; simpl; rewrite Hsent; rewrite <- ?app_assoc; reflexivity.
Qed.

(** [build] and exceptions.  Without an application [build] does nothing at
    all: the server is unchanged and no notification is sent.  With an
    application and a log handler it always returns, whatever [app.build()]
    or the handler raise, and the notification [esbonio/buildComplete] is
    sent, the application and the handler staying in place.  So the only
    exception that leaves [build] is the [AttributeError] for a missing
    [sphinx_log]. *)
Theorem build_catches_exceptions (P : Platform) (W : World) (s : Server) :
  (app s = None -> build P W s = Returned tt s)
  /\ (forall a h,
        app s = Some a -> sphinx_log s = Some h ->
        exists s',
          build P W s = Returned tt s'
          /\ SendNotification "esbonio/buildComplete" ∈ sent s'
          /\ is_Some (app s')
          /\ is_Some (sphinx_log s'))
  /\ (forall e s',
        build P W s = Raised e s' ->
        e = AttributeError "'SphinxLanguageServer' object has no attribute 'sphinx_log'"
        /\ is_Some (app s) /\ sphinx_log s = None).
Proof.
  repeat apply conj.
  - intros Happ. unfold build. rewrite Happ. reflexivity.
  - intros a h Happ Hlog.
    destruct (build_attempt P W s a h) as [[a' h'] exc] eqn:Hattempt.
    destruct (build_returns P W s a h a' h' exc Happ Hlog Hattempt) as (store & Hbuild & _).
    eexists. split; [exact Hbuild|].
    repeat apply conj.
    + unfold after_build. destruct exc; simpl; set_solver.
    + unfold after_build. destruct exc; simpl; eauto.
    + unfold after_build. destruct exc; simpl; eauto.
  - intros e s' Hraised.
    destruct (app s) as [a|] eqn:Happ.
    + destruct (sphinx_log s) as [h|] eqn:Hlog.
      * destruct (build_attempt P W s a h) as [[a' h'] exc] eqn:Hattempt.
        destruct (build_returns P W s a h a' h' exc Happ Hlog Hattempt)
          as (store & Hbuild & _).
        rewrite Hbuild in Hraised. discriminate.
      * unfold build in Hraised. rewrite Happ in Hraised. simpl in Hraised.
        rewrite Hlog in Hraised. injection Hraised as <- _. repeat split. eauto.
    + unfold build in Hraised. rewrite Happ in Hraised. discriminate.
Qed.

Lemma build_catches_exceptions_witness :
  let s0 := state_of (Sample.started Sample.quiet_world None) in
  build Posix.platform Sample.failing_world Sample.fresh = Returned tt Sample.fresh
  /\ exists s',
       build Posix.platform Sample.failing_world s0 = Returned tt s'
       /\ SendNotification "esbonio/buildComplete" ∈ sent s'.
Proof.
  intros s0. split.
  - apply (proj1 (build_catches_exceptions Posix.platform Sample.failing_world Sample.fresh)).
    reflexivity.
  - destruct (app s0) as [a|] eqn:Happ; [|vm_compute in Happ; discriminate].
    destruct (sphinx_log s0) as [h|] eqn:Hlog; [|vm_compute in Hlog; discriminate].
    destruct (proj1 (proj2 (build_catches_exceptions Posix.platform Sample.failing_world s0))
                a h Happ Hlog) as (s' & Hbuild & Hsent & _).
    exists s'. split; assumption.
Defined.

Lemma after_build_user_config s a' h' exc store :
  user_config (after_build s a' h' exc store) = user_config s.
Proof. unfold after_build. destruct exc; reflexivity. Qed.

(** [initialize] and the options of the client.  When no options were sent,
    or options that the validation refuses, the construction of
    [InitializationOptions] raises and the exception leaves [initialize]: a
    [TypeError] or a [ValidationError], the server being as before.  With
    valid options, [initialize] completes whenever the server will have a
    log handler: when [hide_sphinx_output] is not true, or when a handler is
    left from an earlier initialization.  No failure to create the
    application and no failure of the first build leaves it then; the
    options are kept as [user_config]. *)
Theorem initialize_returns_with_handler (P : Platform) (W : World) (s : Server) :
  initialize P W NoOptions s
  = Raised (TypeError "argument after ** must be a mapping, not NoneType") s
  /\ (forall what, initialize P W (InvalidOptions what) s = Raised (ValidationError what) s)
  /\ (forall options,
        is_Some (sphinx_log s)
        \/ (forall srv, server options = Some srv -> hide_sphinx_output srv <> Some true) ->
        exists s',
          initialize P W (Options options) s = Returned tt s' /\ user_config s' = options).
Proof.
  split; [reflexivity|]. split; [intros what; reflexivity|].
  intros options Hhandler. rewrite initialize_unfold.
  set (s0 := set_user_config options s).
  pose proof (create_sphinx_app_cases P W options s0) as Hcases.
  destruct (create_sphinx_app P W (user_config s0) s0) as [a s1|e s1] eqn:Hcreate.
  - rewrite (_initialize_sphinx_created P W s0 a s1 Hcreate).
    assert (Hlog : is_Some (sphinx_log s1) /\ user_config s1 = options).
    { change (user_config s0) with options in Hcreate.
      destruct (sphinx options) as [cfg|]; [|congruence].
      destruct (find_conf_dir P (glob_conf_py W) (workspace_root_uri s0) (OfSphinxConfig cfg))
        as [[cd|]|e]; try congruence.
      destruct (new_Sphinx W cd cfg) as [a'|e]; [|congruence].
      destruct (server options) as [srv|] eqn:Hsrv; [|congruence].
      rewrite Hcases in Hcreate. injection Hcreate as <- <-.
      destruct (bool_decide_reflect (hide_sphinx_output srv = Some true)) as [Hhide|Hshow].
      - destruct Hhandler as [Hsome|Hnot].
        + split; [exact Hsome|reflexivity].
        + destruct (Hnot srv eq_refl Hhide).
      - split; [simpl; eauto|reflexivity]. }
    destruct Hlog as ([h Hlog] & Hconfig).
    destruct (build_attempt P W (set_app (Some a) s1) a h) as [[a' h'] exc] eqn:Hattempt.
    destruct (build_returns P W (set_app (Some a) s1) a h a' h' exc eq_refl Hlog Hattempt)
      as (store & Hbuild & _).
    eexists. split; [exact Hbuild|].
    rewrite after_build_user_config. exact Hconfig.
  - rewrite (_initialize_sphinx_failed P W s0 e s1 Hcreate).
    destruct (create_sphinx_app_frame P W (user_config s0) s0) as (_ & _ & _ & Hconfig).
    rewrite Hcreate in Hconfig. simpl in Hconfig.
    destruct e; (eexists; split; [reflexivity|exact Hconfig]).
Qed.

Lemma initialize_returns_with_handler_witness :
  exists s',
    initialize Posix.platform Sample.failing_world (Options (Sample.options None))
      Sample.fresh
    = Returned tt s'
    /\ user_config s' = Sample.options None.
Proof.
  apply (proj2 (proj2 (initialize_returns_with_handler Posix.platform Sample.failing_world
                         Sample.fresh)) (Sample.options None)).
  right. intros srv Hsrv. injection Hsrv as <-. discriminate.
Defined.

(** Saving a document other than [conf.py] while there is no application:
    the group of the document under ["sphinx"] is emptied, and that is all:
    [build] does nothing without an application, so nothing is published and
    the client is not told that the group is now empty. *)
Theorem save_without_app_clears_silently (P : Platform) (W : World) (uri : string)
    (s : Server) :
  app s = None ->
  PyStr.endswith "conf.py" (to_fs_path P uri) = false ->
  exists s',
    save P W uri s = Returned tt s'
    /\ sent s' = sent s
    /\ _diagnostics s' !! ("sphinx", uri) = (fun _ => []) <$> _diagnostics s !! ("sphinx", uri)
    /\ (forall key, key <> ("sphinx", uri) -> _diagnostics s' !! key = _diagnostics s !! key).
Proof.
  intros Happ Hend. exists (state_of (clear_diagnostics "sphinx" uri s)).
  repeat apply conj.
  - rewrite (save_other_document P W uri s Hend).
    unfold build. simpl. rewrite Happ. reflexivity.
  - reflexivity.
  - apply lookup_alter_eq.
  - intros key Hkey. apply lookup_alter_ne. congruence.
Qed.

Lemma save_without_app_clears_silently_witness :
  let s := set__diagnostics {[ ("sphinx", "file:///ws/a.rst") := [Sample.label_diagnostic] ]}
             Sample.fresh in
  exists s',
    save Posix.platform Sample.empty_world "file:///ws/a.rst" s = Returned tt s'
    /\ sent s' = []
    /\ _diagnostics s' !! ("sphinx", "file:///ws/a.rst") = Some [].
Proof.
  intros s.
  destruct (save_without_app_clears_silently Posix.platform Sample.empty_world
              "file:///ws/a.rst" s eq_refl eq_refl) as (s' & Hsave & Hsent & Hgroup & _).
  exists s'. repeat apply conj.
  - exact Hsave.
  - rewrite Hsent. reflexivity.
  - rewrite Hgroup. reflexivity.
Defined.

Lemma save_with_app_unfold (P : Platform) (W : World) (uri : string) (s : Server) (a : Sphinx) :
  app s = Some a ->
  PyStr.endswith "conf.py" (to_fs_path P uri) = true ->
  save P W uri s =
    if String.eqb (path_join P [path_join P [confdir a]; "conf.py"]) (to_fs_path P uri) then
      match _initialize_sphinx P W s with
      | Returned r s1 => build P W (set_app r s1)
      | Raised e s1 => Raised e s1
      end
    else build P W s.
Proof.
  intros Happ Hend. rewrite save_unfold, Hend.
  unfold mbind at 1. unfold Py_bind.
  unfold mbind at 1. unfold Py_bind, read. rewrite Happ.
  unfold mbind at 1. unfold Py_bind, mret, Py_ret.
  unfold mbind at 1. unfold Py_bind, lift, truediv, mret, Py_ret, pathlike_str.
  destruct (String.eqb (path_join P [path_join P [confdir a]; "conf.py"]) (to_fs_path P uri)).
  - unfold mbind, Py_bind, update.
    destruct (_initialize_sphinx P W s); reflexivity.
  - reflexivity.
Qed.

(** Saving a file whose path ends in [conf.py] while there is an
    application.  If the path is not [conf.py] in the application's
    configuration directory (another directory's [conf.py], or a file such
    as [myconf.py]), the save is a plain build: the application is kept and
    the diagnostics of the saved file are not emptied.  If it is, the
    application is created anew, and when that fails the server is left
    without application: the save returns, the user is shown a message, the
    build is skipped and the stored diagnostics stay as they are. *)
Theorem save_conf_py_with_app (P : Platform) (W : World) (uri : string) (s : Server)
    (a : Sphinx) :
  app s = Some a ->
  PyStr.endswith "conf.py" (to_fs_path P uri) = true ->
  (path_join P [path_join P [confdir a]; "conf.py"] <> to_fs_path P uri ->
     save P W uri s = build P W s)
  /\ (path_join P [path_join P [confdir a]; "conf.py"] = to_fs_path P uri ->
      forall e s1,
        create_sphinx_app P W (user_config s) s = Raised e s1 ->
        exists s',
          save P W uri s = Returned tt s'
          /\ app s' = None
          /\ _diagnostics s' = _diagnostics s
          /\ (exists text msg_type, ShowMessage text msg_type ∈ sent s')
          /\ forall m, PublishDiagnostics m.1 m.2 ∉ drop (length (sent s)) (sent s')).
Proof.
  intros Happ Hend. rewrite (save_with_app_unfold P W uri s a Happ Hend). split.
  - intros Hne. apply String.eqb_neq in Hne. rewrite Hne. reflexivity.
  - intros Heq e s1 Hcreate. apply String.eqb_eq in Heq. rewrite Heq.
    rewrite (_initialize_sphinx_failed P W s e s1 Hcreate).
    destruct (create_sphinx_app_frame P W (user_config s) s) as (_ & Hsent & Hdiag & _).
    rewrite Hcreate in Hsent, Hdiag. simpl in Hsent, Hdiag.
    destruct e;
      (eexists; split; [reflexivity|]; repeat apply conj;
       [ reflexivity
       | exact Hdiag
       | simpl; do 2 eexists; apply elem_of_app; right; constructor
       | intros m; simpl; rewrite Hsent; rewrite <- ?app_assoc;
         rewrite drop_app_length; intros Hin;
         repeat (apply elem_of_cons in Hin as [Hin|Hin]; [discriminate Hin|]);
         apply elem_of_nil in Hin; exact Hin ]).
Qed.

Lemma save_conf_py_with_app_witness :
  let s0 := state_of (Sample.started Sample.quiet_world None) in
  save Posix.platform Sample.quiet_world "file:///ws/docs/myconf.py" s0
  = build Posix.platform Sample.quiet_world s0
  /\ exists s',
       save Posix.platform Sample.empty_world "file:///ws/docs/conf.py" s0 = Returned tt s'
       /\ app s' = None.
Proof.
  intros s0.
  destruct (app s0) as [a|] eqn:Happ; [|vm_compute in Happ; discriminate].
  split.
  - apply (proj1 (save_conf_py_with_app Posix.platform Sample.quiet_world
                    "file:///ws/docs/myconf.py" s0 a Happ eq_refl)).
    vm_compute in Happ. injection Happ as <-. vm_compute. discriminate.
  - destruct (create_sphinx_app Posix.platform Sample.empty_world (user_config s0) s0)
      as [a' s1|e s1] eqn:Hcreate; [vm_compute in Hcreate; discriminate|].
    destruct (proj2 (save_conf_py_with_app Posix.platform Sample.empty_world
                       "file:///ws/docs/conf.py" s0 a Happ eq_refl)
                ltac:(vm_compute in Happ; injection Happ as <-; vm_compute; reflexivity)
                e s1 Hcreate) as (s' & Hsave & Hnone & _).
    exists s'. split; assumption.
Defined.
